(** * dry: the application controller (app/dry.go)

    A shallow embedding of the controller of the dry terminal dashboard:
    the view-mode machine, the sort-mode rotation, the fetch-then-show
    handlers, the prune report cache, and the message outbox.

    Conventions.
    - A Go pair [(value, err)] is a pair whose second component is
      [option error]; [None] is Go's [nil] error.
    - A Go pointer is an [option]; [None] is the nil pointer.  Reading a
      field through a nil pointer is a run-time panic, the [Panic] outcome.
    - The controller is one mutable object; every handler takes the
      controller before the call and returns the controller after it.
    - Effects on collaborators (the outbox channel, the screen, the daemon's
      sort directive, the widgets) are appended to the [effects] log of the
      controller, oldest first.
    - The handlers that only talk to the daemon and the outbox ([Kill], [Rm],
      the [Remove...] family, [Logs], [Ok]) and [Close] touch neither the
      state nor the cache and are left out. *)

From stdpp Require Import gmap strings pretty list fin_maps.

Local Open Scope string_scope.

(** ** Daemon-defined data *)

(** Go's [error], identified with the text its [Error()] method returns. *)
Definition error : Type := string.

Module types.

(** [types.ImageSummary]: the controller reads [ID] only. *)
Record ImageSummary : Type := mkImageSummary {
  ImageSummary_ID : string;
  ImageSummary_payload : string
}.

(** [types.NetworkResource]: the controller reads [ID] only. *)
Record NetworkResource : Type := mkNetworkResource {
  NetworkResource_ID : string;
  NetworkResource_payload : string
}.

(** [types.ImageInspect], [types.Info], [image.HistoryResponseItem] and
    [drydocker.PruneReport] are stored and handed to the renderer; the
    controller never reads a field of them, so a value is an opaque
    payload. *)
Record ImageInspect : Type := mkImageInspect { ImageInspect_payload : string }.
Record Info : Type := mkInfo { Info_payload : string }.
Record HistoryResponseItem : Type :=
  mkHistoryResponseItem { HistoryResponseItem_payload : string }.
Record PruneReport : Type := mkPruneReport { PruneReport_payload : string }.

(** Go zero values of the struct types. *)
Definition zeroNetworkResource : NetworkResource := mkNetworkResource "" "".
Definition zeroImageInspect : ImageInspect := mkImageInspect "".
Definition zeroInfo : Info := mkInfo "".

End types.

(** ** View modes and sort modes *)

(** The view modes named in dry.go.  [Main] is the container list. *)
Inductive viewMode : Type :=
  | Main | Images | Networks
  | DiskUsage | EventsMode | HelpMode | ImageHistoryMode | InfoMode
  | InspectImageMode | InspectNetworkMode | Monitor | Nodes | Services
  | ServiceTasks | Tasks.

(** [viewMode.isMainScreen] is declared outside dry.go.  The controller is
    written against any such classification of the view modes. *)
Class MainScreens : Type := isMainScreen : viewMode -> bool.

(** Modelled from the spec: [isMainScreen], the method of [viewMode] that
    dry.go calls and does not define.  The main screens are the container
    list, the image list and the network list; every other mode is a detail
    or overlay screen. *)
Definition specMainScreens : MainScreens :=
  fun v => match v with
           | Main | Images | Networks => true
           | _ => false
           end.

(** [drydocker.SortMode] is an integer type declared outside dry.go.  The
    three constants [SortNetworks] switches on are kept by name; any other
    value of the integer type is [SortModeOther]. *)
Inductive SortMode : Type :=
  | SortNetworksByID
  | SortNetworksByName
  | SortNetworksByDriver
  | SortModeOther (n : N).

(** ** The result cache (github.com/patrickmn/go-cache)

    dry.go creates the cache with [cache.New(5*time.Minute, 30*time.Second)],
    stores with [Add] and reads with [Get].  The definitions follow the
    library: an item is an object and an absolute expiration in Unix
    nanoseconds, [0] meaning that the item never expires; an item is expired
    once the clock is strictly past its expiration.  The clock reading
    [time.Now().UnixNano()] is the explicit argument [now]. *)

Module time.
Definition Second : Z := 1000000000.
Definition Minute : Z := 60 * Second.
End time.

Module cache.

Definition NoExpiration : Z := -1.
Definition DefaultExpiration : Z := 0.

(** The only objects dry.go stores are [*drydocker.PruneReport] pointers. *)
Record Item : Type := mkItem {
  Object : option types.PruneReport;
  Expiration : Z
}.

Record Cache : Type := mkCache {
  defaultExpiration : Z;
  items : gmap string Item
}.

(** [New(defaultExpiration, cleanupInterval)]: an empty cache.  The
    cleanup interval is the period of the janitor, which calls
    [DeleteExpired]. *)
Definition New (de ci : Z) : Cache :=
  mkCache (if decide (de = 0)%Z then NoExpiration else de) ∅.

(** [c.set(k, x, d)]. *)
Definition set (now : Z) (k : string) (x : option types.PruneReport) (d : Z)
    (c : Cache) : Cache :=
  let d := if decide (d = DefaultExpiration) then defaultExpiration c else d in
  let e := if decide (0 < d)%Z then (now + d)%Z else 0%Z in
  mkCache (defaultExpiration c) (<[k := mkItem x e]> (items c)).

(** [c.get(k)]: the object and [true], or not found ([None]). *)
Definition get (now : Z) (k : string) (c : Cache)
    : option (option types.PruneReport) :=
  match items c !! k with
  | None => None
  | Some item =>
      if decide (0 < Expiration item)%Z then
        if decide (Expiration item < now)%Z then None else Some (Object item)
      else Some (Object item)
  end.

Definition Get := get.

(** [c.Add(k, x, d)]: stores only if no unexpired item is held under [k];
    otherwise the cache is unchanged and an error is returned. *)
Definition Add (now : Z) (k : string) (x : option types.PruneReport) (d : Z)
    (c : Cache) : Cache * option error :=
  match get now k c with
  | Some _ => (c, Some ("Item " +:+ k +:+ " already exists"))
  | None => (set now k x d c, None)
  end.

(** [c.DeleteExpired()], run by the janitor. *)
Definition DeleteExpired (now : Z) (c : Cache) : Cache :=
  mkCache (defaultExpiration c)
    (filter (fun kv => ¬ (0 < Expiration kv.2 ∧ Expiration kv.2 < now)%Z)
            (items c)).

End cache.

(** Modelled from the spec: the package constant [pruneReport], the cache key
    of the prune report, which dry.go uses and does not define. *)
Definition pruneReport : string := "prune-report".

(** ** The Daemon Gateway *)

Module ContainerDaemon.

(** The methods of [drydocker.ContainerDaemon] that the modelled handlers
    call, as the answers the daemon gives during one handler call.
    [ImageAt] and [NetworkAt] return a pointer to the record. *)
Record t : Type := mk {
  Events : option error;
  History : string -> list types.HistoryResponseItem * option error;
  ImageAt : Z -> option types.ImageSummary * option error;
  Info : types.Info * option error;
  InspectImage : string -> types.ImageInspect * option error;
  NetworkAt : Z -> option types.NetworkResource * option error;
  NetworkInspect : string -> types.NetworkResource * option error;
  Networks : list types.NetworkResource * option error;
  Prune : option types.PruneReport * option error
}.

End ContainerDaemon.

(** ** Application state *)

(** [state]: the lock-guarded record. *)
Record state : Type := mkState {
  state_previousViewMode : viewMode;
  state_viewMode : viewMode;
  state_sortNetworksMode : SortMode
}.

(** What a handler does to its collaborators. *)
Inductive effect : Type :=
  | Emit (message : string)            (* appmessage: a send attempt on d.output *)
  | RefreshScreen                      (* refreshScreen() *)
  | DaemonSortNetworks (m : SortMode)  (* d.dockerDaemon.SortNetworks(m) *)
  | PrepareServiceTasks (serviceID : string)
  | PrepareNodeTasks (nodeID : string).

(** [Dry]: the application. *)
Record Dry : Type := mkDry {
  imageHistory : list types.HistoryResponseItem;
  info : types.Info;
  inspectedImage : types.ImageInspect;
  inspectedNetwork : types.NetworkResource;
  networks : list types.NetworkResource;
  dry_state : state;
  dry_cache : cache.Cache;
  effects : list effect
}.

Definition with_state (s : state) (d : Dry) : Dry :=
  mkDry (imageHistory d) (info d) (inspectedImage d) (inspectedNetwork d)
        (networks d) s (dry_cache d) (effects d).

Definition with_cache (c : cache.Cache) (d : Dry) : Dry :=
  mkDry (imageHistory d) (info d) (inspectedImage d) (inspectedNetwork d)
        (networks d) (dry_state d) c (effects d).

Definition with_imageHistory (h : list types.HistoryResponseItem) (d : Dry) : Dry :=
  mkDry h (info d) (inspectedImage d) (inspectedNetwork d)
        (networks d) (dry_state d) (dry_cache d) (effects d).

Definition with_info (i : types.Info) (d : Dry) : Dry :=
  mkDry (imageHistory d) i (inspectedImage d) (inspectedNetwork d)
        (networks d) (dry_state d) (dry_cache d) (effects d).

Definition with_inspectedImage (i : types.ImageInspect) (d : Dry) : Dry :=
  mkDry (imageHistory d) (info d) i (inspectedNetwork d)
        (networks d) (dry_state d) (dry_cache d) (effects d).

Definition with_inspectedNetwork (n : types.NetworkResource) (d : Dry) : Dry :=
  mkDry (imageHistory d) (info d) (inspectedImage d) n
        (networks d) (dry_state d) (dry_cache d) (effects d).

Definition with_networks (ns : list types.NetworkResource) (d : Dry) : Dry :=
  mkDry (imageHistory d) (info d) (inspectedImage d) (inspectedNetwork d)
        ns (dry_state d) (dry_cache d) (effects d).

(** Performing one effect. *)
Definition perform (e : effect) (d : Dry) : Dry :=
  mkDry (imageHistory d) (info d) (inspectedImage d) (inspectedNetwork d)
        (networks d) (dry_state d) (dry_cache d) (effects d ++ [e]).

(** The messages handed to the outbox so far, oldest first. *)
Definition outbox (d : Dry) : list string :=
  omap (fun e => match e with Emit m => Some m | _ => None end) (effects d).

(** The result of a handler that may dereference a nil pointer. *)
Inductive outcome (A : Type) : Type :=
  | Done (a : A)
  | Panic.
Arguments Done {A} a.
Arguments Panic {A}.

(** [p.field] on a pointer [p]. *)
Definition deref {A B : Type} (p : option A) (k : A -> outcome B) : outcome B :=
  match p with
  | Some a => k a
  | None => Panic
  end.

(** [strings.Contains(s, sub)]. *)
Fixpoint contains (sub s : string) : bool :=
  if String.prefix sub s then true
  else match s with
       | EmptyString => false
       | String _ s' => contains sub s'
       end.

(** ** The controller *)

Section Controller.

Context `{MS : MainScreens}.

(** [SetViewMode]: a main screen is also remembered as the view to go
    back to. *)
Definition SetViewMode (newViewMode : viewMode) (d : Dry) : Dry :=
  let s := dry_state d in
  let s :=
    if isMainScreen newViewMode
    then mkState newViewMode (state_viewMode s) (state_sortNetworksMode s)
    else s in
  with_state
    (mkState (state_previousViewMode s) newViewMode (state_sortNetworksMode s))
    d.

(** [changeViewMode]: sets the mode, then refreshes the screen. *)
Definition changeViewMode (newViewMode : viewMode) (d : Dry) : Dry :=
  perform RefreshScreen (SetViewMode newViewMode d).

(** [d.viewMode()]. *)
Definition Dry_viewMode (d : Dry) : viewMode := state_viewMode (dry_state d).

Definition previousViewMode (d : Dry) : viewMode :=
  state_previousViewMode (dry_state d).

(** [appmessage]: a non-blocking send attempt on the output channel. *)
Definition appmessage (message : string) (d : Dry) : Dry :=
  perform (Emit message) d.

(** [actionMessage]; the format is
    ["<red>%s container with id </><white>%v</>"]. *)
Definition actionMessage (cid action : string) (d : Dry) : Dry :=
  appmessage ("<red>" +:+ action +:+ " container with id </><white>" +:+ cid
              +:+ "</>") d.

(** [errorMessage]; the format is
    ["<red>Error %s container </><white>%v. %s</>"]. *)
Definition errorMessage (cid action : string) (err : error) (d : Dry) : Dry :=
  appmessage ("<red>Error " +:+ action +:+ " container </><white>" +:+ cid
              +:+ ". " +:+ err +:+ "</>") d.

Section Handlers.

Variable daemon : ContainerDaemon.t.

(** [History]. *)
Definition History (id : string) (d : Dry) : Dry :=
  let '(history, err) := ContainerDaemon.History daemon id in
  match err with
  | None => with_imageHistory history (changeViewMode ImageHistoryMode d)
  | Some err =>
      appmessage ("<red>Error getting history of image </><white>" +:+ id
                  +:+ ": " +:+ err +:+ "</>") d
  end.

(** [HistoryAt]. *)
Definition HistoryAt (position : Z) (d : Dry) : outcome Dry :=
  let '(apiImage, err) := ContainerDaemon.ImageAt daemon position in
  match err with
  | None =>
      deref apiImage (fun i => Done (History (types.ImageSummary_ID i) d))
  | Some err =>
      Done (appmessage ("<red>Error getting history of image </><white>: "
                        +:+ err +:+ "</>") d)
  end.

(** [InspectImage]. *)
Definition InspectImage (id : string) (d : Dry) : Dry :=
  let '(image, err) := ContainerDaemon.InspectImage daemon id in
  match err with
  | None => with_inspectedImage image (changeViewMode InspectImageMode d)
  | Some err => errorMessage id "inspecting image" err d
  end.

(** [InspectImageAt]: the error branch reads [apiImage.ID]. *)
Definition InspectImageAt (position : Z) (d : Dry) : outcome Dry :=
  let '(apiImage, err) := ContainerDaemon.ImageAt daemon position in
  match err with
  | None =>
      deref apiImage
        (fun i => Done (InspectImage (types.ImageSummary_ID i) d))
  | Some err =>
      deref apiImage
        (fun i => Done (errorMessage (types.ImageSummary_ID i)
                                     "inspecting image" err d))
  end.

(** [InspectNetwork]: the error branch names [network.ID], the record
    returned with the error, not the requested [id]. *)
Definition InspectNetwork (id : string) (d : Dry) : Dry :=
  let '(network, err) := ContainerDaemon.NetworkInspect daemon id in
  match err with
  | None => with_inspectedNetwork network (changeViewMode InspectNetworkMode d)
  | Some err =>
      errorMessage (types.NetworkResource_ID network) "inspecting network"
                   err d
  end.

(** [InspectNetworkAt]: the error branch reads [network.ID]. *)
Definition InspectNetworkAt (position : Z) (d : Dry) : outcome Dry :=
  let '(network, err) := ContainerDaemon.NetworkAt daemon position in
  match err with
  | None =>
      deref network
        (fun n => Done (InspectNetwork (types.NetworkResource_ID n) d))
  | Some err =>
      deref network
        (fun n => Done (errorMessage (types.NetworkResource_ID n)
                                     "inspecting network" err d))
  end.

(** [Prune]: the error [Add] may return is dropped. *)
Definition Prune (now : Z) (d : Dry) : Dry :=
  let '(pr, err) := ContainerDaemon.Prune daemon in
  match err with
  | None =>
      with_cache
        (cache.Add now pruneReport pr (30 * time.Second) (dry_cache d)).1 d
  | Some err => appmessage ("<red>Error running prune. " +:+ err +:+ "</>") d
  end.

(** [ShowInfo]: the one handler that hands the failure to its caller. *)
Definition ShowInfo (d : Dry) : Dry * option error :=
  let '(i, err) := ContainerDaemon.Info daemon in
  match err with
  | None => (with_info i (changeViewMode InfoMode d), None)
  | Some err => (d, Some err)
  end.

(** [ShowNetworks]. *)
Definition ShowNetworks (d : Dry) : Dry :=
  let '(ns, err) := ContainerDaemon.Networks daemon in
  match err with
  | None => with_networks ns (changeViewMode Networks d)
  | Some err =>
      appmessage ("Could not retrieve network list: " +:+ err +:+ " ") d
  end.

End Handlers.

(** [PruneReport]: the cached report, or nil. *)
Definition PruneReport (now : Z) (d : Dry) : option types.PruneReport :=
  match cache.Get now pruneReport (dry_cache d) with
  | Some pr => pr
  | None => None
  end.

(** [ShowMainView]. *)
Definition ShowMainView (d : Dry) : Dry := changeViewMode (previousViewMode d) d.

Definition ShowContainers : Dry -> Dry := changeViewMode Main.
Definition ShowDiskUsage : Dry -> Dry := changeViewMode DiskUsage.
Definition ShowDockerEvents : Dry -> Dry := changeViewMode EventsMode.
Definition ShowHelp : Dry -> Dry := changeViewMode HelpMode.
Definition ShowImages : Dry -> Dry := changeViewMode Images.
Definition ShowMonitor : Dry -> Dry := changeViewMode Monitor.
Definition ShowNodes : Dry -> Dry := changeViewMode Nodes.
Definition ShowServices : Dry -> Dry := changeViewMode Services.

Definition ShowServiceTasks (serviceID : string) (d : Dry) : Dry :=
  changeViewMode ServiceTasks (perform (PrepareServiceTasks serviceID) d).

Definition ShowTasks (nodeID : string) (d : Dry) : Dry :=
  changeViewMode Tasks (perform (PrepareNodeTasks nodeID) d).

(** The [switch] of [SortNetworks]. *)
Definition nextSortNetworksMode (m : SortMode) : SortMode :=
  match m with
  | SortNetworksByID => SortNetworksByName
  | SortNetworksByName => SortNetworksByDriver
  | SortNetworksByDriver => SortNetworksByID
  | SortModeOther _ => m
  end.

(** [SortNetworks]: rotates, pushes the mode to the daemon, refreshes. *)
Definition SortNetworks (d : Dry) : Dry :=
  let s := dry_state d in
  let s := mkState (state_previousViewMode s) (state_viewMode s)
                   (nextSortNetworksMode (state_sortNetworksMode s)) in
  perform RefreshScreen
    (perform (DaemonSortNetworks (state_sortNetworksMode s)) (with_state s d)).

Definition sortNetworksMode (d : Dry) : SortMode :=
  state_sortNetworksMode (dry_state d).

(** The controller [newDry] builds when the event subscription succeeds. *)
Definition initialDry : Dry :=
  perform (DaemonSortNetworks SortNetworksByID)
    (mkDry [] types.zeroInfo types.zeroImageInspect types.zeroNetworkResource
           [] (mkState Main Main SortNetworksByID)
           (cache.New (5 * time.Minute) (30 * time.Second)) []).

(** [newDry]: the controller, or the error of the event subscription.  The
    event listener started by [startDry] runs beside the handlers and only
    refreshes the screen; it is left out. *)
Definition newDry (daemon : ContainerDaemon.t) : option Dry * option error :=
  match ContainerDaemon.Events daemon with
  | None => (Some initialDry, None)
  | Some err => (None, Some err)
  end.

(** *** Runs of the controller *)

(** One call of a state-changing operation: the handlers above, and the
    tick of the cache janitor started by [cache.New]. *)
Inductive op : Type :=
  | OpSetViewMode (m : viewMode)
  | OpHistoryAt (position : Z)
  | OpHistory (id : string)
  | OpInspectImageAt (position : Z)
  | OpInspectImage (id : string)
  | OpInspectNetworkAt (position : Z)
  | OpInspectNetwork (id : string)
  | OpPrune
  | OpShowMainView
  | OpShowContainers
  | OpShowDiskUsage
  | OpShowDockerEvents
  | OpShowHelp
  | OpShowImages
  | OpShowInfo
  | OpShowMonitor
  | OpShowNetworks
  | OpShowNodes
  | OpShowServices
  | OpShowServiceTasks (serviceID : string)
  | OpShowTasks (nodeID : string)
  | OpSortNetworks
  | OpJanitor.

(** A call comes with the daemon's answers and the clock at that moment. *)
Record call : Type := mkCall {
  call_daemon : ContainerDaemon.t;
  call_now : Z;
  call_op : op
}.

Definition step (c : call) (d : Dry) : outcome Dry :=
  let daemon := call_daemon c in
  match call_op c with
  | OpSetViewMode m => Done (SetViewMode m d)
  | OpHistoryAt p => HistoryAt daemon p d
  | OpHistory id => Done (History daemon id d)
  | OpInspectImageAt p => InspectImageAt daemon p d
  | OpInspectImage id => Done (InspectImage daemon id d)
  | OpInspectNetworkAt p => InspectNetworkAt daemon p d
  | OpInspectNetwork id => Done (InspectNetwork daemon id d)
  | OpPrune => Done (Prune daemon (call_now c) d)
  | OpShowMainView => Done (ShowMainView d)
  | OpShowContainers => Done (ShowContainers d)
  | OpShowDiskUsage => Done (ShowDiskUsage d)
  | OpShowDockerEvents => Done (ShowDockerEvents d)
  | OpShowHelp => Done (ShowHelp d)
  | OpShowImages => Done (ShowImages d)
  | OpShowInfo => Done (ShowInfo daemon d).1
  | OpShowMonitor => Done (ShowMonitor d)
  | OpShowNetworks => Done (ShowNetworks daemon d)
  | OpShowNodes => Done (ShowNodes d)
  | OpShowServices => Done (ShowServices d)
  | OpShowServiceTasks id => Done (ShowServiceTasks id d)
  | OpShowTasks id => Done (ShowTasks id d)
  | OpSortNetworks => Done (SortNetworks d)
  | OpJanitor =>
      Done (with_cache (cache.DeleteExpired (call_now c) (dry_cache d)) d)
  end.

(** A run: the calls in order; a panic ends the program. *)
Fixpoint run (cs : list call) (d : Dry) : outcome Dry :=
  match cs with
  | [] => Done d
  | c :: cs' =>
      match step c d with
      | Done d' => run cs' d'
      | Panic => Panic
      end
  end.

(** A run of [SetViewMode] calls only. *)
Definition SetViewModes (ms : list viewMode) (d : Dry) : Dry :=
  foldl (fun d m => SetViewMode m d) d ms.

(** The invariant of the machine: the view to go back to is a main screen. *)
Definition backIsMain (d : Dry) : Prop :=
  isMainScreen (previousViewMode d) = true.

(** A call that is not a [Prune] the daemon answers without error. *)
Definition notSuccessfulPrune (c : call) : Prop :=
  call_op c = OpPrune -> (ContainerDaemon.Prune (call_daemon c)).2 <> None.

End Controller.

(** The ttl [Prune] stores with. *)
Definition pruneTTL : Z := 30 * time.Second.

(** Modelled from the spec: [Put(key, value, ttl)], the store operation the
    spec describes, which stores or overwrites.  dry.go stores with [Add];
    [Put] is here to be compared with it. *)
Definition Put (now : Z) (k : string) (x : option types.PruneReport) (d : Z)
    (c : cache.Cache) : cache.Cache :=
  cache.set now k x d c.

(** The fetch-then-show handlers that absorb a failure of the daemon. *)
Inductive fetchThenShow : Type :=
  | FetchHistory (id : string)
  | FetchInspectImage (id : string)
  | FetchInspectNetwork (id : string)
  | FetchNetworks.

(** The call a handler stands for. *)
Definition fetchOp (f : fetchThenShow) : op :=
  match f with
  | FetchHistory id => OpHistory id
  | FetchInspectImage id => OpInspectImage id
  | FetchInspectNetwork id => OpInspectNetwork id
  | FetchNetworks => OpShowNetworks
  end.

(** The error of the daemon call the handler makes. *)
Definition gatewayError (daemon : ContainerDaemon.t) (f : fetchThenShow)
    : option error :=
  match f with
  | FetchHistory id => (ContainerDaemon.History daemon id).2
  | FetchInspectImage id => (ContainerDaemon.InspectImage daemon id).2
  | FetchInspectNetwork id => (ContainerDaemon.NetworkInspect daemon id).2
  | FetchNetworks => (ContainerDaemon.Networks daemon).2
  end.

(** The message the handler formats for the error [e]. *)
Definition failureMessage (daemon : ContainerDaemon.t) (f : fetchThenShow)
    (e : error) : string :=
  match f with
  | FetchHistory id =>
      "<red>Error getting history of image </><white>" +:+ id +:+ ": " +:+ e
      +:+ "</>"
  | FetchInspectImage id =>
      "<red>Error inspecting image container </><white>" +:+ id +:+ ". " +:+ e
      +:+ "</>"
  | FetchInspectNetwork id =>
      "<red>Error inspecting network container </><white>"
      +:+ types.NetworkResource_ID (ContainerDaemon.NetworkInspect daemon id).1
      +:+ ". " +:+ e +:+ "</>"
  | FetchNetworks => "Could not retrieve network list: " +:+ e +:+ " "
  end.

(** ** Sample daemons *)

(** A daemon whose every call fails with [err], returning nil pointers and
    zero values with the error, as Go functions conventionally do. *)
Definition failingDaemon (err : error) : ContainerDaemon.t :=
  ContainerDaemon.mk
    (Some err)
    (fun _ => ([], Some err))
    (fun _ => (None, Some err))
    (types.zeroInfo, Some err)
    (fun _ => (types.zeroImageInspect, Some err))
    (fun _ => (None, Some err))
    (fun _ => (types.zeroNetworkResource, Some err))
    ([], Some err)
    (None, Some err).

(** A daemon with one image, one network and a prune report [pr]; positions
    other than [0] do not resolve. *)
Definition sampleDaemon (pr : types.PruneReport) : ContainerDaemon.t :=
  ContainerDaemon.mk
    None
    (fun id => ([types.mkHistoryResponseItem ("layer of " +:+ id)], None))
    (fun p => if decide (p = 0)%Z
              then (Some (types.mkImageSummary "img1" "busybox"), None)
              else (None, Some "Position is higher than number of images"))
    (types.mkInfo "host", None)
    (fun id => (types.mkImageInspect ("image " +:+ id), None))
    (fun p => if decide (p = 0)%Z
              then (Some (types.mkNetworkResource "net1" "bridge"), None)
              else (None, Some "Position is higher than number of networks"))
    (fun id => (types.mkNetworkResource id "bridge", None))
    ([types.mkNetworkResource "net1" "bridge"], None)
    (Some pr, None).

(** A daemon whose failed position lookups come with a record. *)
Definition staleDaemon : ContainerDaemon.t :=
  ContainerDaemon.mk
    None
    (fun _ => ([], None))
    (fun _ => (Some (types.mkImageSummary "img9" "gone"), Some "image list changed"))
    (types.zeroInfo, None)
    (fun _ => (types.zeroImageInspect, None))
    (fun _ => (None, Some "network list changed"))
    (fun _ => (types.zeroNetworkResource, None))
    ([], None)
    (None, None).

(** The clock of the samples: 2023-11-14 22:13:20 UTC, in nanoseconds. *)
Definition sampleNow : Z := 1700000000 * time.Second.

Definition firstReport : types.PruneReport := types.mkPruneReport "reclaimed 1 GB".
Definition secondReport : types.PruneReport := types.mkPruneReport "reclaimed 0 B".

(** A session: images, a failing inspect, help, networks, history of a row
    that does not resolve, disk usage. *)
Definition sampleSession : list call :=
  let ok := sampleDaemon (types.mkPruneReport "1 GB") in
  [ mkCall ok 10 OpShowImages;
    mkCall (failingDaemon "daemon down") 20 (OpInspectImage "img1");
    mkCall ok 30 OpShowHelp;
    mkCall ok 40 OpShowNetworks;
    mkCall ok 50 (OpHistoryAt 7);
    mkCall ok 60 (OpInspectNetworkAt 0);
    mkCall ok 70 OpShowDiskUsage ].

(** After the first [Prune]: a failing inspect, a second [Prune] and a
    janitor tick, all within the ttl. *)
Definition pruneSession : list call :=
  [ mkCall (failingDaemon "daemon down") (sampleNow + 1 * time.Second)
           (OpInspectImage "img1");
    mkCall (sampleDaemon secondReport) (sampleNow + 5 * time.Second) OpPrune;
    mkCall (sampleDaemon secondReport) (sampleNow + 30 * time.Second) OpJanitor;
    mkCall (sampleDaemon secondReport) (sampleNow + 30 * time.Second)
           OpShowDiskUsage ].

(** A session in which the only [Prune] fails. *)
Definition failedPruneSession : list call :=
  [ mkCall (sampleDaemon firstReport) sampleNow OpShowDiskUsage;
    mkCall (failingDaemon "daemon down") (sampleNow + 1 * time.Second) OpPrune;
    mkCall (sampleDaemon firstReport) (sampleNow + 31 * time.Second) OpJanitor ].

(** ** Mutating actions *)

Module DaemonActions.

(** The methods of [drydocker.ContainerDaemon] that the mutating handlers
    call.  The counts are Go [int]s; the first result of [Rmi] is dropped by
    its caller. *)
Record t : Type := mk {
  Kill : string -> option error;
  RemoveAllStoppedContainers : Z * option error;
  RemoveDanglingImages : Z * option error;
  RemoveNetwork : string -> option error;
  Rm : string -> option error;
  Rmi : string -> bool -> list string * option error
}.

End DaemonActions.

Section Mutations.

(** [drydocker.TruncateID] and [drydocker.ImageID] are declared outside
    dry.go; the handlers are written against any such functions. *)
Variable TruncateID : string -> string.
Variable ImageID : string -> string.

Variable actions : DaemonActions.t.

(** [Kill]. *)
Definition Kill (id : string) (d : Dry) : Dry :=
  let d := actionMessage id "Killing" d in
  match DaemonActions.Kill actions id with
  | None => actionMessage id "killed" d
  | Some err => errorMessage id "killing" err d
  end.

(** [RemoveAllStoppedContainers]; the count is printed with [%d]. *)
Definition RemoveAllStoppedContainers (d : Dry) : Dry :=
  let d := appmessage "<red>Removing all stopped containers</>" d in
  let '(count, err) := DaemonActions.RemoveAllStoppedContainers actions in
  match err with
  | None =>
      appmessage ("<red>Removed " +:+ pretty count +:+ " stopped containers</>") d
  | Some err =>
      appmessage ("<red>Error removing all stopped containers. " +:+ err
                  +:+ "</>") d
  end.

(** [RemoveDanglingImages]. *)
Definition RemoveDanglingImages (d : Dry) : Dry :=
  let d := appmessage "<red>Removing dangling images</>" d in
  let '(count, err) := DaemonActions.RemoveDanglingImages actions in
  match err with
  | None =>
      appmessage ("<red>Removed " +:+ pretty count +:+ " dangling images</>") d
  | Some err =>
      appmessage ("<red>Error removing dangling images. " +:+ err +:+ "</>") d
  end.

(** [RemoveImage]: the messages show the truncated id, the daemon is given
    the full one. *)
Definition RemoveImage (id : string) (force : bool) (d : Dry) : Dry :=
  let shortID := TruncateID id in
  let d := appmessage ("<red>Removing image:</> <white>" +:+ shortID +:+ "</>") d in
  let '(_, err) := DaemonActions.Rmi actions id force in
  match err with
  | None => appmessage ("<red>Removed image:</> <white>" +:+ shortID +:+ "</>") d
  | Some err =>
      appmessage ("<red>Error removing image </><white>" +:+ shortID +:+ ": "
                  +:+ err +:+ "</>") d
  end.

(** [RemoveImageAt]: the error branch does not read the record. *)
Definition RemoveImageAt (daemon : ContainerDaemon.t) (position : Z)
    (force : bool) (d : Dry) : outcome Dry :=
  let '(image, err) := ContainerDaemon.ImageAt daemon position in
  match err with
  | None =>
      deref image
        (fun i => Done (RemoveImage (ImageID (types.ImageSummary_ID i)) force d))
  | Some err => Done (appmessage ("<red>Error removing image</>: " +:+ err) d)
  end.

(** [RemoveNetwork]. *)
Definition RemoveNetwork (id : string) (d : Dry) : Dry :=
  let shortID := TruncateID id in
  let d := appmessage ("<red>Removing network:</> <white>" +:+ shortID +:+ "</>") d in
  match DaemonActions.RemoveNetwork actions id with
  | None => appmessage ("<red>Removed network:</> <white>" +:+ shortID +:+ "</>") d
  | Some err =>
      appmessage ("<red>Error network image </><white>" +:+ shortID +:+ ": "
                  +:+ err +:+ "</>") d
  end.

(** [Rm]. *)
Definition Rm (id : string) (d : Dry) : Dry :=
  let shortID := TruncateID id in
  let d := actionMessage shortID "Removing" d in
  match DaemonActions.Rm actions id with
  | None => actionMessage shortID "Removed" d
  | Some err => errorMessage shortID "removing" err d
  end.

(** The mutating actions that take no position. *)
Inductive mutation : Type :=
  | MutKill (id : string)
  | MutRemoveAllStoppedContainers
  | MutRemoveDanglingImages
  | MutRemoveImage (id : string) (force : bool)
  | MutRemoveNetwork (id : string)
  | MutRm (id : string).

Definition mutate (m : mutation) : Dry -> Dry :=
  match m with
  | MutKill id => Kill id
  | MutRemoveAllStoppedContainers => RemoveAllStoppedContainers
  | MutRemoveDanglingImages => RemoveDanglingImages
  | MutRemoveImage id force => RemoveImage id force
  | MutRemoveNetwork id => RemoveNetwork id
  | MutRm id => Rm id
  end.

(** The error of the daemon call the action makes. *)
Definition mutationError (m : mutation) : option error :=
  match m with
  | MutKill id => DaemonActions.Kill actions id
  | MutRemoveAllStoppedContainers =>
      (DaemonActions.RemoveAllStoppedContainers actions).2
  | MutRemoveDanglingImages => (DaemonActions.RemoveDanglingImages actions).2
  | MutRemoveImage id force => (DaemonActions.Rmi actions id force).2
  | MutRemoveNetwork id => DaemonActions.RemoveNetwork actions id
  | MutRm id => DaemonActions.Rm actions id
  end.

(** The message an action emits before it calls the daemon. *)
Definition startMessage (m : mutation) : string :=
  match m with
  | MutKill id => "<red>Killing container with id </><white>" +:+ id +:+ "</>"
  | MutRemoveAllStoppedContainers => "<red>Removing all stopped containers</>"
  | MutRemoveDanglingImages => "<red>Removing dangling images</>"
  | MutRemoveImage id _ =>
      "<red>Removing image:</> <white>" +:+ TruncateID id +:+ "</>"
  | MutRemoveNetwork id =>
      "<red>Removing network:</> <white>" +:+ TruncateID id +:+ "</>"
  | MutRm id =>
      "<red>Removing container with id </><white>" +:+ TruncateID id +:+ "</>"
  end.

End Mutations.

(** ** Observations on runs *)

(** The handlers that only change the screen. *)
Inductive pureTransition : Type :=
  | ToContainers | ToDiskUsage | ToDockerEvents | ToHelp | ToImages
  | ToMonitor | ToNodes | ToServices
  | ToServiceTasks (serviceID : string)
  | ToTasks (nodeID : string).

Definition transitionOp (p : pureTransition) : op :=
  match p with
  | ToContainers => OpShowContainers
  | ToDiskUsage => OpShowDiskUsage
  | ToDockerEvents => OpShowDockerEvents
  | ToHelp => OpShowHelp
  | ToImages => OpShowImages
  | ToMonitor => OpShowMonitor
  | ToNodes => OpShowNodes
  | ToServices => OpShowServices
  | ToServiceTasks id => OpShowServiceTasks id
  | ToTasks id => OpShowTasks id
  end.

(** The screen each of them shows. *)
Definition transitionMode (p : pureTransition) : viewMode :=
  match p with
  | ToContainers => Main
  | ToDiskUsage => DiskUsage
  | ToDockerEvents => EventsMode
  | ToHelp => HelpMode
  | ToImages => Images
  | ToMonitor => Monitor
  | ToNodes => Nodes
  | ToServices => Services
  | ToServiceTasks _ => ServiceTasks
  | ToTasks _ => Tasks
  end.

(** The five snapshots of a controller. *)
Definition snapshots (d : Dry) :=
  (imageHistory d, info d, inspectedImage d, inspectedNetwork d, networks d).

(** The sort directive the daemon received last. *)
Definition lastSortDirective (es : list effect) : option SortMode :=
  last (omap (fun e => match e with
                       | DaemonSortNetworks m => Some m
                       | _ => None
                       end) es).

(** How many of the calls are [SortNetworks]. *)
Definition sortCalls (cs : list call) : nat :=
  length (List.filter (fun c => match call_op c with
                                | OpSortNetworks => true
                                | _ => false
                                end) cs).

(** The screen a fetch-then-show handler shows when its fetch succeeds. *)
Definition fetchMode (f : fetchThenShow) : viewMode :=
  match f with
  | FetchHistory _ => ImageHistoryMode
  | FetchInspectImage _ => InspectImageMode
  | FetchInspectNetwork _ => InspectNetworkMode
  | FetchNetworks => Networks
  end.

(** The snapshots after a successful fetch: the fetched one replaced, the
    other four as in [d]. *)
Definition fetchedSnapshots (daemon : ContainerDaemon.t) (f : fetchThenShow)
    (d : Dry) :=
  match f with
  | FetchHistory id =>
      ((ContainerDaemon.History daemon id).1, info d, inspectedImage d,
       inspectedNetwork d, networks d)
  | FetchInspectImage id =>
      (imageHistory d, info d, (ContainerDaemon.InspectImage daemon id).1,
       inspectedNetwork d, networks d)
  | FetchInspectNetwork id =>
      (imageHistory d, info d, inspectedImage d,
       (ContainerDaemon.NetworkInspect daemon id).1, networks d)
  | FetchNetworks =>
      (imageHistory d, info d, inspectedImage d, inspectedNetwork d,
       (ContainerDaemon.Networks daemon).1)
  end.

Definition isSortDirective (e : effect) : bool :=
  match e with
  | DaemonSortNetworks _ => true
  | _ => false
  end.

(** [d'] comes from [d] by effects that are no sort directive, with the sort
    mode as it was. *)
Definition quietly (d d' : Dry) : Prop :=
  exists l : list effect,
    effects d' = (effects d ++ l)%list
    /\ forallb (fun e => negb (isSortDirective e)) l = true
    /\ sortNetworksMode d' = sortNetworksMode d.

(** A daemon that kills and removes without error, and one that refuses. *)
Definition sampleActions : DaemonActions.t :=
  DaemonActions.mk (fun _ => None) (3%Z, None) (0%Z, None) (fun _ => None)
                   (fun _ => None) (fun _ _ => (["untagged"], None)).

Definition failingActions (err : error) : DaemonActions.t :=
  DaemonActions.mk (fun _ => Some err) (0%Z, Some err) (0%Z, Some err)
                   (fun _ => Some err) (fun _ => Some err)
                   (fun _ _ => ([], Some err)).

(** Twelve characters of an id, for the samples. *)
Definition sampleTruncateID (id : string) : string := String.substring 0 12 id.

(** A session with three sort rotations among other calls. *)
Definition sortSession : list call :=
  let ok := sampleDaemon firstReport in
  [ mkCall ok 10 OpSortNetworks;
    mkCall ok 20 OpShowNetworks;
    mkCall ok 30 OpSortNetworks;
    mkCall (failingDaemon "daemon down") 40 OpShowInfo;
    mkCall ok 50 OpPrune;
    mkCall ok 60 OpSortNetworks;
    mkCall ok 70 OpSortNetworks ].

(** ** Properties of the view-mode machine *)

Section ViewModeFacts.

Context `{MS : MainScreens}.

Lemma Dry_viewMode_SetViewMode m d : Dry_viewMode (SetViewMode m d) = m.
Proof. unfold SetViewMode, Dry_viewMode. by destruct (isMainScreen m). Qed.

Lemma previousViewMode_SetViewMode m d :
  previousViewMode (SetViewMode m d)
  = if isMainScreen m then m else previousViewMode d.
Proof. unfold SetViewMode, previousViewMode. by destruct (isMainScreen m). Qed.

Lemma sortNetworksMode_SetViewMode m d :
  sortNetworksMode (SetViewMode m d) = sortNetworksMode d.
Proof. unfold SetViewMode, sortNetworksMode. by destruct (isMainScreen m). Qed.

Lemma effects_SetViewMode m d : effects (SetViewMode m d) = effects d.
Proof. done. Qed.

Lemma dry_cache_SetViewMode m d : dry_cache (SetViewMode m d) = dry_cache d.
Proof. done. Qed.

Lemma Dry_viewMode_changeViewMode m d : Dry_viewMode (changeViewMode m d) = m.
Proof. exact (Dry_viewMode_SetViewMode m d). Qed.

Lemma previousViewMode_changeViewMode m d :
  previousViewMode (changeViewMode m d)
  = if isMainScreen m then m else previousViewMode d.
Proof. exact (previousViewMode_SetViewMode m d). Qed.

Lemma backIsMain_changeViewMode m d :
  backIsMain d -> backIsMain (changeViewMode m d).
Proof.
  unfold backIsMain. rewrite previousViewMode_changeViewMode.
  by destruct (isMainScreen m) eqn:E.
Qed.

Lemma backIsMain_SetViewMode m d : backIsMain d -> backIsMain (SetViewMode m d).
Proof.
  unfold backIsMain. rewrite previousViewMode_SetViewMode.
  by destruct (isMainScreen m) eqn:E.
Qed.

(** State after a run of [SetViewMode] calls, from any controller. *)
Lemma SetViewModes_from ms : forall d,
  Dry_viewMode (SetViewModes ms d) = default (Dry_viewMode d) (last ms)
  /\ previousViewMode (SetViewModes ms d)
     = default (previousViewMode d) (last (List.filter isMainScreen ms)).
Proof.
  induction ms as [|m ms IH]; intros d; [done|].
  change (SetViewModes (m :: ms) d) with (SetViewModes ms (SetViewMode m d)).
  destruct (IH (SetViewMode m d)) as [-> ->].
  rewrite Dry_viewMode_SetViewMode, previousViewMode_SetViewMode.
  rewrite last_cons. cbn [List.filter].
  destruct (isMainScreen m); [rewrite last_cons|];
    (split; [destruct (last ms)|destruct (last (List.filter isMainScreen ms))]);
    reflexivity.
Qed.

End ViewModeFacts.

(** [newDry] starts on the container list, sorted by ID, with an empty
    cache and no snapshot. *)
Lemma newDry_initial daemon d :
  newDry daemon = (Some d, None) ->
  d = initialDry
  /\ Dry_viewMode d = Main /\ previousViewMode d = Main
  /\ sortNetworksMode d = SortNetworksByID
  /\ cache.items (dry_cache d) = ∅ /\ outbox d = [].
Proof.
  unfold newDry. destruct (ContainerDaemon.Events daemon); [done|].
  by intros [= <-].
Qed.

(** C1. After any finite sequence of [SetViewMode] calls on the initial
    controller, the current view mode is the argument of the last call, and
    the stored previous main view mode is the argument of the most recent
    call whose argument was a main screen; with no such call they are the
    initial default, [Main].  This holds whatever modes [isMainScreen]
    classifies as main screens. *)
Theorem SetViewMode_sequence `{MS : MainScreens} (ms : list viewMode) :
  Dry_viewMode (SetViewModes ms initialDry) = default Main (last ms)
  /\ previousViewMode (SetViewModes ms initialDry)
     = default Main (last (List.filter isMainScreen ms)).
Proof. apply (SetViewModes_from ms initialDry). Qed.

Example SetViewModes_example :
  let d := @SetViewModes specMainScreens [Images; HelpMode; Networks; Monitor]
                         initialDry in
  Dry_viewMode d = Monitor /\ previousViewMode d = Networks.
Proof. split; reflexivity. Qed.

(** ** Sort-mode rotation *)

Lemma sortNetworksMode_SortNetworks d :
  sortNetworksMode (SortNetworks d) = nextSortNetworksMode (sortNetworksMode d).
Proof. reflexivity. Qed.

(** [SortNetworks] pushes the mode it has just stored to the daemon and then
    refreshes the screen. *)
Lemma effects_SortNetworks d :
  effects (SortNetworks d)
  = (effects d ++ [DaemonSortNetworks (sortNetworksMode (SortNetworks d));
                   RefreshScreen])%list.
Proof. unfold SortNetworks, perform; cbn. by rewrite <- app_assoc. Qed.

(** C5. [SortNetworks] is a total function on controllers.  One call takes
    by-ID to by-name, by-name to by-driver and by-driver to by-ID, and
    leaves any other mode value unchanged; three calls bring the sort mode
    back to where it started, and for the three named modes neither one nor
    two calls do. *)
Theorem SortNetworks_cycle (d : Dry) :
  sortNetworksMode (SortNetworks d)
  = match sortNetworksMode d with
    | SortNetworksByID => SortNetworksByName
    | SortNetworksByName => SortNetworksByDriver
    | SortNetworksByDriver => SortNetworksByID
    | SortModeOther n => SortModeOther n
    end
  /\ sortNetworksMode (SortNetworks (SortNetworks (SortNetworks d)))
     = sortNetworksMode d
  /\ match sortNetworksMode d with
     | SortModeOther _ => True
     | _ => sortNetworksMode (SortNetworks d) <> sortNetworksMode d
            /\ sortNetworksMode (SortNetworks (SortNetworks d))
               <> sortNetworksMode d
     end.
Proof.
  rewrite !sortNetworksMode_SortNetworks.
  destruct (sortNetworksMode d); cbn; repeat split; congruence.
Qed.

(** ** Fetch-then-show handlers *)

Section HandlerFacts.

Context `{MS : MainScreens}.
Variable daemon : ContainerDaemon.t.

Lemma outbox_perform_Emit m d : outbox (perform (Emit m) d) = (outbox d ++ [m])%list.
Proof. unfold outbox, perform; cbn. by rewrite omap_app. Qed.

Lemma outbox_appmessage m d : outbox (appmessage m d) = (outbox d ++ [m])%list.
Proof. apply outbox_perform_Emit. Qed.

Lemma outbox_changeViewMode m d : outbox (changeViewMode m d) = outbox d.
Proof.
  unfold outbox, changeViewMode, perform; cbn.
  rewrite omap_app; cbn. by rewrite app_nil_r.
Qed.

Lemma History_failure id h e d :
  ContainerDaemon.History daemon id = (h, Some e) ->
  History daemon id d
  = appmessage ("<red>Error getting history of image </><white>" +:+ id
                +:+ ": " +:+ e +:+ "</>") d.
Proof. unfold History. by intros ->. Qed.

Lemma InspectImage_failure id i e d :
  ContainerDaemon.InspectImage daemon id = (i, Some e) ->
  InspectImage daemon id d = errorMessage id "inspecting image" e d.
Proof. unfold InspectImage. by intros ->. Qed.

Lemma InspectNetwork_failure id n e d :
  ContainerDaemon.NetworkInspect daemon id = (n, Some e) ->
  InspectNetwork daemon id d
  = errorMessage (types.NetworkResource_ID n) "inspecting network" e d.
Proof. unfold InspectNetwork. by intros ->. Qed.

Lemma ShowNetworks_failure ns e d :
  ContainerDaemon.Networks daemon = (ns, Some e) ->
  ShowNetworks daemon d
  = appmessage ("Could not retrieve network list: " +:+ e +:+ " ") d.
Proof. unfold ShowNetworks. by intros ->. Qed.

End HandlerFacts.

(** C3. When the daemon call of [History], [InspectImage], [InspectNetwork]
    or [ShowNetworks] fails with [e], the handler returns normally to its
    caller, the controller it leaves differs from the one it was called on
    only by one message handed to the outbox, the formatted failure message;
    in particular the active view mode and the previous main view mode are
    unchanged. *)
Theorem fetch_then_show_failure_absorbed `{MS : MainScreens}
    (daemon : ContainerDaemon.t) (now : Z) (f : fetchThenShow) (e : error)
    (d : Dry) :
  gatewayError daemon f = Some e ->
  exists d',
    step (mkCall daemon now (fetchOp f)) d = Done d'
    /\ d' = appmessage (failureMessage daemon f e) d
    /\ outbox d' = (outbox d ++ [failureMessage daemon f e])%list
    /\ Dry_viewMode d' = Dry_viewMode d
    /\ previousViewMode d' = previousViewMode d.
Proof.
  intros He.
  exists (appmessage (failureMessage daemon f e) d).
  split; [|split; [done|split; [apply outbox_appmessage|done]]].
  destruct f as [id|id|id|]; cbn in He |- *; f_equal.
  - destruct (ContainerDaemon.History daemon id) as [h err] eqn:E.
    cbn in He; subst err. by apply History_failure with h.
  - destruct (ContainerDaemon.InspectImage daemon id) as [i err] eqn:E.
    cbn in He; subst err. by rewrite (InspectImage_failure daemon id i e d E).
  - destruct (ContainerDaemon.NetworkInspect daemon id) as [n err] eqn:E.
    cbn in He; subst err. by rewrite (InspectNetwork_failure daemon id n e d E).
  - destruct (ContainerDaemon.Networks daemon) as [ns err] eqn:E.
    cbn in He; subst err. by apply ShowNetworks_failure with ns.
Qed.

Lemma fetch_then_show_failure_absorbed_witness :
  gatewayError (failingDaemon "no route to host") (FetchInspectNetwork "net1")
  = Some "no route to host"
  /\ exists d',
       @step specMainScreens
             (mkCall (failingDaemon "no route to host") 0
                     (fetchOp (FetchInspectNetwork "net1")))
             (@ShowImages specMainScreens initialDry)
       = Done d'
       /\ outbox d'
          = ["<red>Error inspecting network container </><white>. no route to host</>"]
       /\ Dry_viewMode d' = Images
       /\ previousViewMode d' = Images.
Proof.
  split; [reflexivity|].
  destruct (@fetch_then_show_failure_absorbed specMainScreens
              (failingDaemon "no route to host") 0 (FetchInspectNetwork "net1")
              "no route to host" (@ShowImages specMainScreens initialDry)
              eq_refl)
    as (d' & Hstep & _ & Hout & Hvm & Hprev).
  exists d'. split; [exact Hstep|]. split; [exact Hout|].
  split; [exact Hvm|exact Hprev].
Defined.

(** C6. If the daemon's network-inspect call for [id] (say ["net1"])
    succeeds with record [r], [InspectNetwork id] sets the active view mode
    to the network-inspect mode and the inspected-network snapshot is [r]. *)
Theorem InspectNetwork_success `{MS : MainScreens} (daemon : ContainerDaemon.t)
    (id : string) (r : types.NetworkResource) (d : Dry) :
  ContainerDaemon.NetworkInspect daemon id = (r, None) ->
  Dry_viewMode (InspectNetwork daemon id d) = InspectNetworkMode
  /\ inspectedNetwork (InspectNetwork daemon id d) = r.
Proof. unfold InspectNetwork. intros ->. split; [|done]. by rewrite <- (Dry_viewMode_changeViewMode InspectNetworkMode d). Qed.

Lemma InspectNetwork_success_witness :
  let daemon := sampleDaemon (types.mkPruneReport "1 GB") in
  let r := types.mkNetworkResource "net1" "bridge" in
  ContainerDaemon.NetworkInspect daemon "net1" = (r, None)
  /\ Dry_viewMode (@InspectNetwork specMainScreens daemon "net1" initialDry)
     = InspectNetworkMode
  /\ inspectedNetwork (@InspectNetwork specMainScreens daemon "net1" initialDry)
     = r.
Proof.
  split; [reflexivity|].
  apply (@InspectNetwork_success specMainScreens
           (sampleDaemon (types.mkPruneReport "1 GB")) "net1"
           (types.mkNetworkResource "net1" "bridge") initialDry).
  reflexivity.
Defined.

(** C8. [ShowInfo] hands a failure of the host-info fetch back to its
    caller and leaves the controller exactly as it was: no message, the same
    view mode, the same host-info snapshot.  On success it returns no
    error, the view mode is the info mode and the fetched host info is
    stored. *)
Theorem ShowInfo_returns_failure `{MS : MainScreens}
    (daemon : ContainerDaemon.t) (i : types.Info) (d : Dry) :
  (forall e, ContainerDaemon.Info daemon = (i, Some e) ->
     ShowInfo daemon d = (d, Some e)
     /\ outbox (ShowInfo daemon d).1 = outbox d
     /\ Dry_viewMode (ShowInfo daemon d).1 = Dry_viewMode d
     /\ info (ShowInfo daemon d).1 = info d)
  /\ (ContainerDaemon.Info daemon = (i, None) ->
      (ShowInfo daemon d).2 = None
      /\ Dry_viewMode (ShowInfo daemon d).1 = InfoMode
      /\ info (ShowInfo daemon d).1 = i).
Proof.
  unfold ShowInfo. split; [intros e|]; intros ->; cbn; [done|].
  split; [done|]. split; [|done].
  exact (Dry_viewMode_changeViewMode InfoMode d).
Qed.

Lemma ShowInfo_returns_failure_witness :
  (ContainerDaemon.Info (failingDaemon "timeout") = (types.zeroInfo, Some "timeout")
   /\ @ShowInfo specMainScreens (failingDaemon "timeout") initialDry
      = (initialDry, Some "timeout"))
  /\ (ContainerDaemon.Info (sampleDaemon (types.mkPruneReport "1 GB"))
      = (types.mkInfo "host", None)
      /\ Dry_viewMode (@ShowInfo specMainScreens
                         (sampleDaemon (types.mkPruneReport "1 GB")) initialDry).1
         = InfoMode).
Proof.
  split.
  - split; [reflexivity|].
    apply (proj1 (@ShowInfo_returns_failure specMainScreens
                    (failingDaemon "timeout") types.zeroInfo initialDry)
                 "timeout" eq_refl).
  - split; [reflexivity|].
    apply (proj2 (@ShowInfo_returns_failure specMainScreens
                    (sampleDaemon (types.mkPruneReport "1 GB"))
                    (types.mkInfo "host") initialDry) eq_refl).
Defined.

(** ** Fetch by position *)

Section PositionFacts.

Context `{MS : MainScreens}.
Variable daemon : ContainerDaemon.t.

(** [HistoryAt] on a failed resolution: the by-id step is skipped and one
    message naming the resolution error is emitted. *)
Lemma HistoryAt_resolution_failure position apiImage e d :
  ContainerDaemon.ImageAt daemon position = (apiImage, Some e) ->
  HistoryAt daemon position d
  = Done (appmessage ("<red>Error getting history of image </><white>: "
                      +:+ e +:+ "</>") d).
Proof. unfold HistoryAt. by intros ->. Qed.

(** [InspectImageAt] on a failed resolution that comes with a record. *)
Lemma InspectImageAt_resolution_failure position i e d :
  ContainerDaemon.ImageAt daemon position = (Some i, Some e) ->
  InspectImageAt daemon position d
  = Done (errorMessage (types.ImageSummary_ID i) "inspecting image" e d).
Proof. unfold InspectImageAt. by intros ->. Qed.

(** [InspectImageAt] on a failed resolution that comes with a nil record. *)
Lemma InspectImageAt_resolution_failure_nil position e d :
  ContainerDaemon.ImageAt daemon position = (None, Some e) ->
  InspectImageAt daemon position d = Panic.
Proof. unfold InspectImageAt. by intros ->. Qed.

Lemma InspectNetworkAt_resolution_failure position n e d :
  ContainerDaemon.NetworkAt daemon position = (Some n, Some e) ->
  InspectNetworkAt daemon position d
  = Done (errorMessage (types.NetworkResource_ID n) "inspecting network" e d).
Proof. unfold InspectNetworkAt. by intros ->. Qed.

Lemma InspectNetworkAt_resolution_failure_nil position e d :
  ContainerDaemon.NetworkAt daemon position = (None, Some e) ->
  InspectNetworkAt daemon position d = Panic.
Proof. unfold InspectNetworkAt. by intros ->. Qed.

(** Both failure messages start with ["<red>Error "]. *)
Lemma contains_Error_HistoryAt_message e :
  contains "Error" ("<red>Error getting history of image </><white>: "
                    +:+ e +:+ "</>") = true.
Proof. reflexivity. Qed.

Lemma contains_Error_errorMessage cid action e d :
  exists msg, errorMessage cid action e d = appmessage msg d
              /\ contains "Error" msg = true.
Proof. eexists. split; [reflexivity|reflexivity]. Qed.

(** The part of the by-position contract that [HistoryAt] meets at every
    position, and [InspectImageAt] at the positions whose failed lookup
    comes with a record. *)
Lemma by_position_failure_with_record position apiImage e d :
  ContainerDaemon.ImageAt daemon position = (apiImage, Some e) ->
  (exists msg, HistoryAt daemon position d = Done (appmessage msg d)
               /\ contains "Error" msg = true)
  /\ (is_Some apiImage ->
      exists msg, InspectImageAt daemon position d = Done (appmessage msg d)
                  /\ contains "Error" msg = true).
Proof.
  intros H. split.
  - eexists. split; [by apply HistoryAt_resolution_failure with apiImage|].
    reflexivity.
  - intros [i ->]. rewrite (InspectImageAt_resolution_failure _ _ _ d H).
    destruct (contains_Error_errorMessage (types.ImageSummary_ID i)
                "inspecting image" e d) as (msg & -> & Hc).
    by exists msg.
Qed.

End PositionFacts.

(** C9, at the failing input.  The position lookup of [sampleDaemon] fails
    at position [7] with a nil record, as Go functions return on an error:
    [HistoryAt 7] emits its message and stays put, [InspectImageAt 7] panics
    on [apiImage.ID] before any message is built. *)
Theorem InspectImageAt_unresolved_position_panics :
  let daemon := sampleDaemon (types.mkPruneReport "1 GB") in
  ContainerDaemon.ImageAt daemon 7
  = (None, Some "Position is higher than number of images")
  /\ @InspectImageAt specMainScreens daemon 7 initialDry = Panic
  /\ @HistoryAt specMainScreens daemon 7 initialDry
     = Done (appmessage
               "<red>Error getting history of image </><white>: Position is higher than number of images</>"
               initialDry).
Proof. split; [|split]; reflexivity. Qed.

(** C10. In the failure branches of [InspectImageAt] and [InspectNetworkAt]
    the message is built from the [ID] of the record returned with the
    error.  At a position whose lookup fails, the handler returns normally
    exactly when that record is not nil, and it panics when it is nil; so
    the error branch is free of panics at every position only if the daemon
    returns a record alongside every error. *)
Theorem error_branch_reads_returned_record `{MS : MainScreens}
    (daemon : ContainerDaemon.t) (position : Z) (e : error) (d : Dry) :
  (forall apiImage,
     ContainerDaemon.ImageAt daemon position = (apiImage, Some e) ->
     (InspectImageAt daemon position d <> Panic <-> apiImage <> None)
     /\ (forall i, apiImage = Some i ->
           InspectImageAt daemon position d
           = Done (errorMessage (types.ImageSummary_ID i) "inspecting image"
                                e d)))
  /\ (forall network,
        ContainerDaemon.NetworkAt daemon position = (network, Some e) ->
        (InspectNetworkAt daemon position d <> Panic <-> network <> None)
        /\ (forall n, network = Some n ->
              InspectNetworkAt daemon position d
              = Done (errorMessage (types.NetworkResource_ID n)
                                   "inspecting network" e d))).
Proof.
  split.
  - intros [i|] H.
    + rewrite (InspectImageAt_resolution_failure _ _ _ _ d H).
      split; [done|]. by intros ? [= <-].
    + rewrite (InspectImageAt_resolution_failure_nil _ _ _ d H).
      split; [done|]. by intros ? [=].
  - intros [n|] H.
    + rewrite (InspectNetworkAt_resolution_failure _ _ _ _ d H).
      split; [done|]. by intros ? [= <-].
    + rewrite (InspectNetworkAt_resolution_failure_nil _ _ _ d H).
      split; [done|]. by intros ? [=].
Qed.

Lemma error_branch_reads_returned_record_witness :
  (ContainerDaemon.ImageAt staleDaemon 3
   = (Some (types.mkImageSummary "img9" "gone"), Some "image list changed")
   /\ @InspectImageAt specMainScreens staleDaemon 3 initialDry
      = Done (errorMessage "img9" "inspecting image" "image list changed"
                           initialDry))
  /\ (ContainerDaemon.NetworkAt staleDaemon 3 = (None, Some "network list changed")
      /\ ~ @InspectNetworkAt specMainScreens staleDaemon 3 initialDry <> Panic).
Proof.
  split.
  - split; [reflexivity|].
    apply (proj2 (proj1 (@error_branch_reads_returned_record specMainScreens
                           staleDaemon 3 "image list changed" initialDry)
                        _ eq_refl)
                 (types.mkImageSummary "img9" "gone") eq_refl).
  - split; [reflexivity|].
    intros Hn.
    apply (proj1 (proj1 (proj2 (@error_branch_reads_returned_record
                                  specMainScreens staleDaemon 3
                                  "network list changed" initialDry)
                               None eq_refl)) Hn).
    reflexivity.
Defined.

(** ** The back-navigation invariant *)

Section Invariant.

Context `{MS : MainScreens}.

Lemma backIsMain_perform e d : backIsMain d -> backIsMain (perform e d).
Proof. done. Qed.

Lemma backIsMain_History daemon id d :
  backIsMain d -> backIsMain (History daemon id d).
Proof.
  intros H. unfold History.
  destruct (ContainerDaemon.History daemon id) as [h [e|]]; [done|].
  exact (backIsMain_changeViewMode ImageHistoryMode d H).
Qed.

Lemma backIsMain_InspectImage daemon id d :
  backIsMain d -> backIsMain (InspectImage daemon id d).
Proof.
  intros H. unfold InspectImage.
  destruct (ContainerDaemon.InspectImage daemon id) as [i [e|]]; [done|].
  exact (backIsMain_changeViewMode InspectImageMode d H).
Qed.

Lemma backIsMain_InspectNetwork daemon id d :
  backIsMain d -> backIsMain (InspectNetwork daemon id d).
Proof.
  intros H. unfold InspectNetwork.
  destruct (ContainerDaemon.NetworkInspect daemon id) as [n [e|]]; [done|].
  exact (backIsMain_changeViewMode InspectNetworkMode d H).
Qed.

Lemma backIsMain_ShowNetworks daemon d :
  backIsMain d -> backIsMain (ShowNetworks daemon d).
Proof.
  intros H. unfold ShowNetworks.
  destruct (ContainerDaemon.Networks daemon) as [ns [e|]]; [done|].
  exact (backIsMain_changeViewMode Networks d H).
Qed.

Lemma backIsMain_ShowInfo daemon d :
  backIsMain d -> backIsMain (ShowInfo daemon d).1.
Proof.
  intros H. unfold ShowInfo.
  destruct (ContainerDaemon.Info daemon) as [i [e|]]; [done|].
  exact (backIsMain_changeViewMode InfoMode d H).
Qed.

Lemma backIsMain_Prune daemon now d :
  backIsMain d -> backIsMain (Prune daemon now d).
Proof.
  intros H. unfold Prune.
  by destruct (ContainerDaemon.Prune daemon) as [pr [e|]].
Qed.

Lemma backIsMain_deref {A} (p : option A) (k : A -> outcome Dry) d' :
  (forall a d', k a = Done d' -> backIsMain d') ->
  deref p k = Done d' -> backIsMain d'.
Proof. destruct p as [a|]; [cbn; eauto|done]. Qed.

(** Every call preserves the invariant. *)
Lemma backIsMain_step c d d' :
  backIsMain d -> step c d = Done d' -> backIsMain d'.
Proof.
  intros H. destruct c as [daemon now o]. unfold step; cbn [call_daemon call_op call_now].
  destruct o;
    try (intros [= <-];
         first [ by apply backIsMain_SetViewMode
               | by apply backIsMain_History
               | by apply backIsMain_InspectImage
               | by apply backIsMain_InspectNetwork
               | by apply backIsMain_ShowNetworks
               | by apply backIsMain_ShowInfo
               | by apply backIsMain_Prune
               | by apply backIsMain_changeViewMode
               | exact H ]).
  - unfold HistoryAt.
    destruct (ContainerDaemon.ImageAt daemon position) as [p [e|]].
    + by intros [= <-].
    + apply backIsMain_deref. intros a ? [= <-]. by apply backIsMain_History.
  - unfold InspectImageAt.
    destruct (ContainerDaemon.ImageAt daemon position) as [p [e|]];
      apply backIsMain_deref; intros a ? [= <-];
      [done | by apply backIsMain_InspectImage].
  - unfold InspectNetworkAt.
    destruct (ContainerDaemon.NetworkAt daemon position) as [p [e|]];
      apply backIsMain_deref; intros a ? [= <-];
      [done | by apply backIsMain_InspectNetwork].
Qed.

Lemma backIsMain_run cs : forall d d',
  backIsMain d -> run cs d = Done d' -> backIsMain d'.
Proof.
  induction cs as [|c cs IH]; intros d d' H; cbn.
  - by intros [= <-].
  - destruct (step c d) as [d1|] eqn:E; [|done].
    apply IH. by apply backIsMain_step with c d.
Qed.

End Invariant.

(** C4. Provided the initial default screen [Main] is a main screen, every
    controller reached from the initial one by a finite sequence of calls
    holds a main screen as its previous main view mode, and [ShowMainView]
    on it makes a main screen the active view mode.  With no call at all
    that screen is [Main]. *)
Theorem ShowMainView_lands_on_main_screen `{MS : MainScreens}
    (cs : list call) (d : Dry) :
  isMainScreen Main = true ->
  run cs initialDry = Done d ->
  isMainScreen (previousViewMode d) = true
  /\ isMainScreen (Dry_viewMode (ShowMainView d)) = true
  /\ Dry_viewMode (ShowMainView initialDry) = Main.
Proof.
  intros HMain Hrun.
  assert (Hinv : backIsMain d) by (by apply backIsMain_run with cs initialDry).
  split; [exact Hinv|]. split; [|exact (Dry_viewMode_changeViewMode Main initialDry)].
  unfold ShowMainView. by rewrite Dry_viewMode_changeViewMode.
Qed.

Lemma ShowMainView_lands_on_main_screen_witness :
  @isMainScreen specMainScreens Main = true
  /\ exists d,
       @run specMainScreens sampleSession initialDry = Done d
       /\ Dry_viewMode d = DiskUsage
       /\ @isMainScreen specMainScreens
            (Dry_viewMode (@ShowMainView specMainScreens d)) = true.
Proof.
  split; [reflexivity|].
  eexists. split; [reflexivity|]. split; [reflexivity|].
  eapply (@ShowMainView_lands_on_main_screen specMainScreens sampleSession);
    reflexivity.
Defined.

(** ** The prune report cache *)

Section CacheFacts.

Import cache.

Lemma items_set now k x d c :
  (0 < d)%Z -> items (set now k x d c) !! k = Some (mkItem x (now + d)).
Proof.
  intros Hd. unfold set, DefaultExpiration; cbn.
  rewrite lookup_insert_eq.
  destruct (decide (d = 0)%Z); [lia|]. by destruct (decide (0 < d)%Z).
Qed.

(** An item is found as long as the clock is not past its expiration. *)
Lemma get_live now k c x e :
  items c !! k = Some (mkItem x e) -> (now <= e)%Z -> get now k c = Some x.
Proof.
  intros H Hle. unfold get. rewrite H; cbn.
  destruct (decide (0 < e)%Z); [|done].
  destruct (decide (e < now)%Z); [lia|done].
Qed.

(** Past its expiration an item behaves as absent. *)
Lemma get_expired now k c x e :
  items c !! k = Some (mkItem x e) -> (0 < e < now)%Z -> get now k c = None.
Proof.
  intros H [H0 Hlt]. unfold get. rewrite H; cbn.
  destruct (decide (0 < e)%Z); [|done].
  destruct (decide (e < now)%Z); [done|lia].
Qed.

Lemma get_empty now k c : items c = ∅ -> get now k c = None.
Proof. intros H. unfold get. by rewrite H, lookup_empty. Qed.

(** [Add] under a key that holds an unexpired item changes nothing. *)
Lemma Add_rejected now k x d c y :
  get now k c = Some y -> (Add now k x d c).1 = c.
Proof. intros H. unfold Add. by rewrite H. Qed.

Lemma Add_stores now k x d c :
  get now k c = None -> (Add now k x d c).1 = set now k x d c.
Proof. intros H. unfold Add. by rewrite H. Qed.

(** The janitor keeps an item whose expiration is not past. *)
Lemma items_DeleteExpired_live now k c x e :
  items c !! k = Some (mkItem x e) -> (now <= e)%Z ->
  items (DeleteExpired now c) !! k = Some (mkItem x e).
Proof.
  intros H Hle. unfold DeleteExpired; cbn.
  apply map_lookup_filter_Some. split; [done|]. cbn. lia.
Qed.

Lemma items_DeleteExpired_empty now c :
  items c = ∅ -> items (DeleteExpired now c) = ∅.
Proof. intros H. unfold DeleteExpired; cbn. rewrite H. apply map_filter_empty. Qed.

(** [Add] and the spec's [Put] agree exactly when the key holds no unexpired
    item; [Put] alone overwrites one. *)
Lemma Add_is_Put_on_free_key now k x d c :
  get now k c = None -> (Add now k x d c).1 = Put now k x d c.
Proof. apply Add_stores. Qed.

Lemma Put_overwrites now k x d c :
  (0 < d)%Z -> items (Put now k x d c) !! k = Some (mkItem x (now + d)).
Proof. apply items_set. Qed.

End CacheFacts.

Section PruneFacts.

Context `{MS : MainScreens}.

Lemma with_cache_id d : with_cache (dry_cache d) d = d.
Proof. by destruct d. Qed.

(** A successful [Prune] that finds no unexpired report stores its own. *)
Lemma Prune_stores daemon pr now d :
  ContainerDaemon.Prune daemon = (pr, None) ->
  cache.get now pruneReport (dry_cache d) = None ->
  cache.items (dry_cache (Prune daemon now d)) !! pruneReport
  = Some (cache.mkItem pr (now + pruneTTL)).
Proof.
  intros Hp Hg. unfold Prune. rewrite Hp; cbn.
  rewrite (Add_stores _ _ _ _ _ Hg). by apply items_set.
Qed.

(** A successful [Prune] that finds an unexpired report changes nothing. *)
Lemma Prune_rejected daemon pr now d y :
  ContainerDaemon.Prune daemon = (pr, None) ->
  cache.get now pruneReport (dry_cache d) = Some y ->
  Prune daemon now d = d.
Proof.
  intros Hp Hg. unfold Prune. rewrite Hp.
  rewrite (Add_rejected _ _ _ _ _ _ Hg). apply with_cache_id.
Qed.

Lemma Prune_failed daemon pr e now d :
  ContainerDaemon.Prune daemon = (pr, Some e) ->
  Prune daemon now d = appmessage ("<red>Error running prune. " +:+ e +:+ "</>") d.
Proof. unfold Prune. by intros ->. Qed.

Lemma PruneReport_live now d pr e :
  cache.items (dry_cache d) !! pruneReport = Some (cache.mkItem pr e) ->
  (now <= e)%Z -> PruneReport now d = pr.
Proof.
  intros H Hle. unfold PruneReport, cache.Get. by rewrite (get_live _ _ _ _ _ H Hle).
Qed.

Lemma PruneReport_empty now d :
  cache.items (dry_cache d) = ∅ -> PruneReport now d = None.
Proof. intros H. unfold PruneReport, cache.Get. by rewrite get_empty. Qed.

(** Only [Prune] and the janitor touch the cache. *)
Lemma dry_cache_deref {A} (p : option A) (k : A -> outcome Dry) d d' :
  (forall a d', k a = Done d' -> dry_cache d' = dry_cache d) ->
  deref p k = Done d' -> dry_cache d' = dry_cache d.
Proof. destruct p as [a|]; [cbn; eauto|done]. Qed.

Lemma dry_cache_History daemon id d :
  dry_cache (History daemon id d) = dry_cache d.
Proof. unfold History. by destruct (ContainerDaemon.History daemon id) as [? [?|]]. Qed.

Lemma dry_cache_InspectImage daemon id d :
  dry_cache (InspectImage daemon id d) = dry_cache d.
Proof.
  unfold InspectImage.
  by destruct (ContainerDaemon.InspectImage daemon id) as [? [?|]].
Qed.

Lemma dry_cache_InspectNetwork daemon id d :
  dry_cache (InspectNetwork daemon id d) = dry_cache d.
Proof.
  unfold InspectNetwork.
  by destruct (ContainerDaemon.NetworkInspect daemon id) as [? [?|]].
Qed.

Lemma dry_cache_step c d d' :
  call_op c <> OpPrune -> call_op c <> OpJanitor ->
  step c d = Done d' -> dry_cache d' = dry_cache d.
Proof.
  destruct c as [daemon now o]. unfold step; cbn [call_daemon call_op call_now].
  intros HnP HnJ.
  destruct o; try done;
    try (intros [= <-];
         first [ apply dry_cache_History
               | apply dry_cache_InspectImage
               | apply dry_cache_InspectNetwork
               | reflexivity ]).
  - unfold HistoryAt.
    destruct (ContainerDaemon.ImageAt daemon position) as [p [e|]].
    + by intros [= <-].
    + apply dry_cache_deref. intros a ? [= <-]. apply dry_cache_History.
  - unfold InspectImageAt.
    destruct (ContainerDaemon.ImageAt daemon position) as [p [e|]];
      apply dry_cache_deref; intros a ? [= <-];
      [done | apply dry_cache_InspectImage].
  - unfold InspectNetworkAt.
    destruct (ContainerDaemon.NetworkAt daemon position) as [p [e|]];
      apply dry_cache_deref; intros a ? [= <-];
      [done | apply dry_cache_InspectNetwork].
  - intros [= <-]. unfold ShowInfo.
    by destruct (ContainerDaemon.Info daemon) as [? [?|]].
  - intros [= <-]. unfold ShowNetworks.
    by destruct (ContainerDaemon.Networks daemon) as [? [?|]].
Qed.

Lemma op_cases (o : op) :
  o = OpPrune \/ o = OpJanitor \/ (o <> OpPrune /\ o <> OpJanitor).
Proof. destruct o; auto. Qed.

(** A stored report stays in place through every call made while the clock
    is not past its expiration. *)
Lemma stored_report_step c d d' pr e :
  cache.items (dry_cache d) !! pruneReport = Some (cache.mkItem pr e) ->
  (call_now c <= e)%Z ->
  step c d = Done d' ->
  cache.items (dry_cache d') !! pruneReport = Some (cache.mkItem pr e).
Proof.
  intros H Hle Hstep.
  destruct (op_cases (call_op c)) as [HP|[HJ|[HP HJ]]].
  - unfold step in Hstep. rewrite HP in Hstep. injection Hstep as <-.
    unfold Prune. destruct (ContainerDaemon.Prune (call_daemon c)) as [pr' [err|]];
      [exact H|].
    cbn. by rewrite (Add_rejected _ _ _ _ _ _ (get_live _ _ _ _ _ H Hle)).
  - unfold step in Hstep. rewrite HJ in Hstep. injection Hstep as <-.
    cbn. by apply items_DeleteExpired_live.
  - by rewrite (dry_cache_step c d d' HP HJ Hstep).
Qed.

Lemma stored_report_run cs : forall d d' pr e,
  cache.items (dry_cache d) !! pruneReport = Some (cache.mkItem pr e) ->
  Forall (fun c => (call_now c <= e)%Z) cs ->
  run cs d = Done d' ->
  cache.items (dry_cache d') !! pruneReport = Some (cache.mkItem pr e).
Proof.
  induction cs as [|c cs IH]; intros d d' pr e H Hall; cbn.
  - by intros [= <-].
  - destruct (step c d) as [d1|] eqn:E; [|done].
    inversion Hall as [|? ? Hc Hcs]; subst.
    apply IH; [|exact Hcs]. by apply stored_report_step with c d.
Qed.

Lemma empty_cache_step c d d' :
  cache.items (dry_cache d) = ∅ -> notSuccessfulPrune c ->
  step c d = Done d' -> cache.items (dry_cache d') = ∅.
Proof.
  intros H Hn Hstep.
  destruct (op_cases (call_op c)) as [HP|[HJ|[HP HJ]]].
  - specialize (Hn HP).
    unfold step in Hstep. rewrite HP in Hstep. injection Hstep as <-.
    unfold Prune. by destruct (ContainerDaemon.Prune (call_daemon c)) as [pr' [err|]].
  - unfold step in Hstep. rewrite HJ in Hstep. injection Hstep as <-.
    cbn. by apply items_DeleteExpired_empty.
  - by rewrite (dry_cache_step c d d' HP HJ Hstep).
Qed.

Lemma empty_cache_run cs : forall d d',
  cache.items (dry_cache d) = ∅ -> Forall notSuccessfulPrune cs ->
  run cs d = Done d' -> cache.items (dry_cache d') = ∅.
Proof.
  induction cs as [|c cs IH]; intros d d' H Hall; cbn.
  - by intros [= <-].
  - destruct (step c d) as [d1|] eqn:E; [|done].
    inversion Hall as [|? ? Hc Hcs]; subst.
    apply IH; [|exact Hcs]. by apply empty_cache_step with c d.
Qed.

End PruneFacts.

(** C2, as stated, fails.  Two stores of different values under one key, the
    second ten seconds after the first and well within the ttl: the cache
    still holds the first value and the first expiration.  The same for two
    successful [Prune] calls: the report read back is the first one. *)
Lemma second_store_within_ttl_does_not_replace :
  let t0 := sampleNow in
  let t1 := (sampleNow + 10 * time.Second)%Z in
  let c1 := (cache.Add t0 "k" (Some firstReport) pruneTTL
               (cache.New (5 * time.Minute) (30 * time.Second))).1 in
  let c2 := (cache.Add t1 "k" (Some secondReport) pruneTTL c1).1 in
  let d1 := Prune (sampleDaemon firstReport) t0 initialDry in
  let d2 := Prune (sampleDaemon secondReport) t1 d1 in
  (t0 <= t1 <= t0 + pruneTTL)%Z
  /\ cache.Get t1 "k" c2 = Some (Some firstReport)
  /\ cache.Get t1 "k" c2 <> Some (Some secondReport)
  /\ cache.Expiration <$> (cache.items c2 !! "k") = Some (t0 + pruneTTL)%Z
  /\ ContainerDaemon.Prune (sampleDaemon secondReport) = (Some secondReport, None)
  /\ PruneReport t1 d2 = Some firstReport
  /\ PruneReport t1 d2 <> Some secondReport
  /\ cache.Expiration <$> (cache.items (dry_cache d2) !! pruneReport)
     = Some (t0 + pruneTTL)%Z
  /\ (t0 + pruneTTL <> t1 + pruneTTL)%Z.
Proof. vm_compute. repeat split; congruence. Qed.

(** C2, amended.  After a first store of [v1] under a free key, a second
    store of [v2] under the same key made before the first entry expires is
    rejected: value and expiration stay as the first store set them.  A
    store made after the first entry has expired replaces the value and sets
    a fresh expiration.  In particular a second successful [Prune] within
    the 30 seconds leaves the controller as the first one left it, and one
    made later replaces the report. *)
Theorem second_store_within_ttl_is_rejected :
  (forall (c : cache.Cache) (k : string) v1 v2 (ttl t0 t1 : Z),
     (0 < ttl)%Z ->
     cache.get t0 k c = None ->
     let c1 := (cache.Add t0 k v1 ttl c).1 in
     let c2 := (cache.Add t1 k v2 ttl c1).1 in
     cache.items c1 !! k = Some (cache.mkItem v1 (t0 + ttl))
     /\ ((t1 <= t0 + ttl)%Z -> c2 = c1 /\ cache.Get t1 k c2 = Some v1)
     /\ ((0 < t0 + ttl < t1)%Z ->
         cache.items c2 !! k = Some (cache.mkItem v2 (t1 + ttl))
         /\ cache.Get t1 k c2 = Some v2))
  /\ (forall (daemon1 daemon2 : ContainerDaemon.t) r1 r2 (t0 t1 : Z) (d : Dry),
        ContainerDaemon.Prune daemon1 = (r1, None) ->
        ContainerDaemon.Prune daemon2 = (r2, None) ->
        cache.get t0 pruneReport (dry_cache d) = None ->
        let d1 := Prune daemon1 t0 d in
        let d2 := Prune daemon2 t1 d1 in
        cache.items (dry_cache d1) !! pruneReport
        = Some (cache.mkItem r1 (t0 + pruneTTL))
        /\ ((t1 <= t0 + pruneTTL)%Z -> d2 = d1 /\ PruneReport t1 d2 = r1)
        /\ ((0 < t0 + pruneTTL < t1)%Z ->
            cache.items (dry_cache d2) !! pruneReport
            = Some (cache.mkItem r2 (t1 + pruneTTL))
            /\ PruneReport t1 d2 = r2)).
Proof.
  split.
  - intros c k v1 v2 ttl t0 t1 Httl Hfree c1 c2.
    assert (H1 : cache.items c1 !! k = Some (cache.mkItem v1 (t0 + ttl))).
    { unfold c1. rewrite (Add_stores _ _ _ _ _ Hfree). by apply items_set. }
    split; [exact H1|]. split.
    + intros Hle.
      assert (Hlive : cache.get t1 k c1 = Some v1) by (by apply get_live with (t0 + ttl)%Z).
      assert (Hc2 : c2 = c1) by (unfold c2; by rewrite (Add_rejected _ _ _ _ _ _ Hlive)).
      split; [exact Hc2|]. by rewrite Hc2.
    + intros Hexp.
      assert (Hgone : cache.get t1 k c1 = None) by (by apply get_expired with v1 (t0 + ttl)%Z).
      assert (H2 : cache.items c2 !! k = Some (cache.mkItem v2 (t1 + ttl))).
      { unfold c2. rewrite (Add_stores _ _ _ _ _ Hgone). by apply items_set. }
      split; [exact H2|]. apply get_live with (t1 + ttl)%Z; [exact H2|lia].
  - intros daemon1 daemon2 r1 r2 t0 t1 d Hp1 Hp2 Hfree d1 d2.
    assert (H1 : cache.items (dry_cache d1) !! pruneReport
                 = Some (cache.mkItem r1 (t0 + pruneTTL)))
      by (by apply Prune_stores).
    split; [exact H1|]. split.
    + intros Hle.
      assert (Hd2 : d2 = d1).
      { unfold d2. apply Prune_rejected with r2 r1; [exact Hp2|].
        by apply get_live with (t0 + pruneTTL)%Z. }
      split; [exact Hd2|]. rewrite Hd2.
      by apply PruneReport_live with (t0 + pruneTTL)%Z.
    + intros Hexp.
      assert (H2 : cache.items (dry_cache d2) !! pruneReport
                   = Some (cache.mkItem r2 (t1 + pruneTTL))).
      { unfold d2. apply Prune_stores; [exact Hp2|].
        by apply get_expired with r1 (t0 + pruneTTL)%Z. }
      split; [exact H2|].
      apply PruneReport_live with (t1 + pruneTTL)%Z; [exact H2|].
      unfold pruneTTL, time.Second. lia.
Qed.

Lemma second_store_within_ttl_is_rejected_witness :
  let t0 := sampleNow in
  let d1 := Prune (sampleDaemon firstReport) t0 initialDry in
  ((t0 + 10 * time.Second <= t0 + pruneTTL)%Z
   /\ Prune (sampleDaemon secondReport)
        (t0 + 10 * time.Second) d1 = d1)
  /\ ((0 < t0 + pruneTTL < t0 + 31 * time.Second)%Z
      /\ PruneReport (t0 + 31 * time.Second)
           (Prune (sampleDaemon secondReport)
              (t0 + 31 * time.Second) d1)
         = Some secondReport).
Proof.
  intros t0 d1.
  pose proof (proj2 second_store_within_ttl_is_rejected
                (sampleDaemon firstReport) (sampleDaemon secondReport)
                (Some firstReport) (Some secondReport) t0) as H.
  split.
  - assert (Hle : (t0 + 10 * time.Second <= t0 + pruneTTL)%Z) by (vm_compute; discriminate).
    split; [exact Hle|].
    exact (proj1 (proj1 (proj2 (H (t0 + 10 * time.Second)%Z initialDry
                                  eq_refl eq_refl eq_refl)) Hle)).
  - assert (Hlt : (0 < t0 + pruneTTL < t0 + 31 * time.Second)%Z)
      by (vm_compute; split; reflexivity).
    split; [exact Hlt|].
    exact (proj2 (proj2 (proj2 (H (t0 + 31 * time.Second)%Z initialDry
                                  eq_refl eq_refl eq_refl)) Hlt)).
Defined.

(** C7, as stated, fails.  A [Prune] the daemon answers with [secondReport]
    runs five seconds after one it answered with [firstReport];
    [PruneReport], one second later and within the ttl of the cached entry,
    returns [firstReport], not the report of the [Prune] call it follows. *)
Lemma PruneReport_after_second_Prune_returns_first_report :
  let t0 := sampleNow in
  let t1 := (sampleNow + 5 * time.Second)%Z in
  let t2 := (sampleNow + 6 * time.Second)%Z in
  let d1 := Prune (sampleDaemon firstReport) t0 initialDry in
  let d2 := Prune (sampleDaemon secondReport) t1 d1 in
  ContainerDaemon.Prune (sampleDaemon secondReport) = (Some secondReport, None)
  /\ (t1 <= t2 <= t1 + pruneTTL)%Z
  /\ (t2 <= t0 + pruneTTL)%Z
  /\ PruneReport t2 d2 = Some firstReport
  /\ PruneReport t2 d2 <> Some secondReport.
Proof. vm_compute. repeat split; congruence. Qed.

(** C7, amended.  A successful [Prune] that ran when no unexpired report was
    cached, as the first [Prune] of a fresh controller does, stores its
    report; [PruneReport] then returns exactly that report at any moment not
    past the 30 seconds, whatever calls, further [Prune]s and janitor ticks
    included, ran in between.  On a controller that has seen no successful
    [Prune], [PruneReport] returns nil. *)
Theorem PruneReport_returns_stored_report `{MS : MainScreens} :
  (forall (daemon : ContainerDaemon.t) pr (t0 t : Z) (d d' : Dry) (cs : list call),
     ContainerDaemon.Prune daemon = (pr, None) ->
     cache.get t0 pruneReport (dry_cache d) = None ->
     Forall (fun c => (call_now c <= t0 + pruneTTL)%Z) cs ->
     run cs (Prune daemon t0 d) = Done d' ->
     (t <= t0 + pruneTTL)%Z ->
     PruneReport t d' = pr)
  /\ (forall (daemon : ContainerDaemon.t) pr (t0 t : Z),
        ContainerDaemon.Prune daemon = (pr, None) ->
        (t <= t0 + pruneTTL)%Z ->
        PruneReport t (Prune daemon t0 initialDry) = pr)
  /\ (forall (cs : list call) (d : Dry) (t : Z),
        Forall notSuccessfulPrune cs ->
        run cs initialDry = Done d ->
        PruneReport t d = None).
Proof.
  assert (Hmain : forall daemon pr t0 t d d' cs,
     ContainerDaemon.Prune daemon = (pr, None) ->
     cache.get t0 pruneReport (dry_cache d) = None ->
     Forall (fun c => (call_now c <= t0 + pruneTTL)%Z) cs ->
     run cs (Prune daemon t0 d) = Done d' ->
     (t <= t0 + pruneTTL)%Z ->
     PruneReport t d' = pr).
  { intros daemon pr t0 t d d' cs Hp Hfree Hall Hrun Ht.
    apply PruneReport_live with (t0 + pruneTTL)%Z; [|exact Ht].
    apply (stored_report_run cs (Prune daemon t0 d)); [|exact Hall|exact Hrun].
    by apply Prune_stores. }
  split; [exact Hmain|]. split.
  - intros daemon pr t0 t Hp Ht.
    apply (Hmain daemon pr t0 t initialDry _ []); try done.
  - intros cs d t Hall Hrun.
    apply PruneReport_empty.
    by apply (empty_cache_run cs initialDry).
Qed.

Lemma PruneReport_returns_stored_report_witness :
  (exists d',
     @run specMainScreens pruneSession
          (Prune (sampleDaemon firstReport) sampleNow initialDry) = Done d'
     /\ PruneReport (sampleNow + 30 * time.Second) d' = Some firstReport)
  /\ PruneReport sampleNow (Prune (sampleDaemon firstReport) sampleNow initialDry)
     = Some firstReport
  /\ (exists d,
        @run specMainScreens failedPruneSession initialDry = Done d
        /\ PruneReport (sampleNow + 2 * time.Second) d = None).
Proof.
  destruct (@PruneReport_returns_stored_report specMainScreens)
    as (Hstored & Hfresh & Hnone).
  split; [|split].
  - eexists. split; [reflexivity|].
    eapply (Hstored (sampleDaemon firstReport) (Some firstReport) sampleNow
                    (sampleNow + 30 * time.Second)%Z initialDry _ pruneSession).
    + reflexivity.
    + reflexivity.
    + unfold pruneSession. repeat constructor; vm_compute; discriminate.
    + reflexivity.
    + vm_compute; discriminate.
  - apply (Hfresh (sampleDaemon firstReport) (Some firstReport)); [reflexivity|].
    vm_compute; discriminate.
  - eexists. split; [reflexivity|].
    eapply (Hnone failedPruneSession).
    + unfold failedPruneSession, notSuccessfulPrune.
      repeat constructor; cbn; intros; congruence.
    + reflexivity.
Defined.

(** ** Messages *)

Lemma contains_unfold sub s :
  contains sub s
  = if String.prefix sub s then true
    else match s with
         | EmptyString => false
         | String _ s' => contains sub s'
         end.
Proof. by destruct s. Qed.

Lemma String_prefix_app sub b : String.prefix sub (sub +:+ b) = true.
Proof.
  induction sub as [|a sub IH]; [by destruct b|].
  change (String a sub +:+ b) with (String a (sub +:+ b)).
  cbn [String.prefix].
  destruct (Ascii.ascii_dec a a) as [_|Hne]; [exact IH|by destruct Hne].
Qed.

Lemma contains_here sub b : contains sub (sub +:+ b) = true.
Proof. by rewrite contains_unfold, String_prefix_app. Qed.

Lemma contains_app_r sub a s :
  contains sub s = true -> contains sub (a +:+ s) = true.
Proof.
  intros H. induction a as [|c a IH]; [exact H|].
  change (String c a +:+ s) with (String c (a +:+ s)).
  rewrite contains_unfold.
  destruct (String.prefix sub (String c (a +:+ s))); [reflexivity|exact IH].
Qed.

Lemma contains_refl sub : contains sub sub = true.
Proof.
  rewrite contains_unfold.
  assert (H : String.prefix sub sub = true); [|by rewrite H].
  induction sub as [|a sub IH]; [reflexivity|].
  cbn [String.prefix].
  destruct (Ascii.ascii_dec a a) as [_|Hne]; [exact IH|by destruct Hne].
Qed.

Ltac names_it :=
  repeat first [apply contains_refl | apply contains_here | apply contains_app_r].

(** X1. When the daemon call of [History], [InspectImage], [InspectNetwork]
    or [ShowNetworks] fails with [e], the one message the handler emits
    contains the text of [e]. *)
Theorem fetch_failure_message_names_reason `{MS : MainScreens}
    (daemon : ContainerDaemon.t) (now : Z) (f : fetchThenShow) (e : error)
    (d : Dry) :
  gatewayError daemon f = Some e ->
  exists msg,
    step (mkCall daemon now (fetchOp f)) d = Done (appmessage msg d)
    /\ contains e msg = true.
Proof.
  intros He. destruct f as [id|id|id|]; cbn in He |- *.
  - destruct (ContainerDaemon.History daemon id) as [h err] eqn:E.
    cbn in He; subst err. rewrite (History_failure daemon id h e d E).
    eexists; split; [reflexivity|]. names_it.
  - destruct (ContainerDaemon.InspectImage daemon id) as [i err] eqn:E.
    cbn in He; subst err. rewrite (InspectImage_failure daemon id i e d E).
    eexists; split; [reflexivity|]. names_it.
  - destruct (ContainerDaemon.NetworkInspect daemon id) as [n err] eqn:E.
    cbn in He; subst err. rewrite (InspectNetwork_failure daemon id n e d E).
    eexists; split; [reflexivity|]. names_it.
  - destruct (ContainerDaemon.Networks daemon) as [ns err] eqn:E.
    cbn in He; subst err. rewrite (ShowNetworks_failure daemon ns e d E).
    eexists; split; [reflexivity|]. names_it.
Qed.

Lemma fetch_failure_message_names_reason_witness :
  gatewayError (failingDaemon "no route to host") FetchNetworks
  = Some "no route to host"
  /\ exists msg,
       @step specMainScreens
         (mkCall (failingDaemon "no route to host") 0 (fetchOp FetchNetworks))
         initialDry
       = Done (appmessage msg initialDry)
       /\ contains "no route to host" msg = true.
Proof.
  split; [reflexivity|].
  apply (@fetch_failure_message_names_reason specMainScreens
           (failingDaemon "no route to host") 0 FetchNetworks
           "no route to host" initialDry eq_refl).
Defined.

(** X2. [HistoryAt] at a position whose lookup fails never panics, whether
    or not a record comes with the error: it skips [History] and leaves the
    controller as it was but for one message, which contains ["Error"] and
    the text of the lookup error. *)
Theorem HistoryAt_failure_is_absorbed `{MS : MainScreens}
    (daemon : ContainerDaemon.t) (position : Z)
    (apiImage : option types.ImageSummary) (e : error) (d : Dry) :
  ContainerDaemon.ImageAt daemon position = (apiImage, Some e) ->
  exists msg,
    HistoryAt daemon position d = Done (appmessage msg d)
    /\ contains "Error" msg = true
    /\ contains e msg = true.
Proof.
  intros H. rewrite (HistoryAt_resolution_failure daemon position apiImage e d H).
  eexists; split; [reflexivity|]. split; [reflexivity|names_it].
Qed.

Lemma HistoryAt_failure_is_absorbed_witness :
  ContainerDaemon.ImageAt (sampleDaemon firstReport) 7
  = (None, Some "Position is higher than number of images")
  /\ exists msg,
       @HistoryAt specMainScreens (sampleDaemon firstReport) 7 initialDry
       = Done (appmessage msg initialDry)
       /\ contains "Error" msg = true
       /\ contains "Position is higher than number of images" msg = true.
Proof.
  split; [reflexivity|].
  apply (@HistoryAt_failure_is_absorbed specMainScreens
           (sampleDaemon firstReport) 7 None
           "Position is higher than number of images" initialDry eq_refl).
Defined.

(** ** Mutating actions *)

Section MutationFacts.

Variable TruncateID : string -> string.
Variable actions : DaemonActions.t.

Lemma mutate_shape (m : mutation) (d : Dry) :
  exists second,
    mutate TruncateID actions m d
    = appmessage second (appmessage (startMessage TruncateID m) d)
    /\ (forall e, mutationError actions m = Some e ->
          contains "Error" second = true /\ contains e second = true).
Proof.
  destruct m as [id| | |id force|id|id]; cbn [mutate mutationError startMessage].
  - unfold Kill. destruct (DaemonActions.Kill actions id) as [err|];
      eexists; (split; [reflexivity|]);
      intros e [=]; subst; split; [reflexivity|names_it].
  - unfold RemoveAllStoppedContainers.
    destruct (DaemonActions.RemoveAllStoppedContainers actions) as [n [err|]];
      eexists; (split; [reflexivity|]);
      intros e [=]; subst; split; [reflexivity|names_it].
  - unfold RemoveDanglingImages.
    destruct (DaemonActions.RemoveDanglingImages actions) as [n [err|]];
      eexists; (split; [reflexivity|]);
      intros e [=]; subst; split; [reflexivity|names_it].
  - unfold RemoveImage.
    destruct (DaemonActions.Rmi actions id force) as [r [err|]];
      eexists; (split; [reflexivity|]);
      intros e [=]; subst; split; [reflexivity|names_it].
  - unfold RemoveNetwork.
    destruct (DaemonActions.RemoveNetwork actions id) as [err|];
      eexists; (split; [reflexivity|]);
      intros e [=]; subst; split; [reflexivity|names_it].
  - unfold Rm.
    destruct (DaemonActions.Rm actions id) as [err|];
      eexists; (split; [reflexivity|]);
      intros e [=]; subst; split; [reflexivity|names_it].
Qed.

(** X3. [Kill], [Rm], [RemoveImage], [RemoveNetwork],
    [RemoveAllStoppedContainers] and [RemoveDanglingImages] hand exactly two
    messages to the outbox and change nothing else: view modes, snapshots,
    cache and screen are as before.  The first message is fixed before the
    daemon is called; when the daemon fails with [e], the second contains
    ["Error"] and the text of [e]. *)
Theorem mutating_action_emits_two_messages (m : mutation) (d : Dry) :
  exists second,
    mutate TruncateID actions m d
    = appmessage second (appmessage (startMessage TruncateID m) d)
    /\ outbox (mutate TruncateID actions m d)
       = (outbox d ++ [startMessage TruncateID m; second])%list
    /\ dry_state (mutate TruncateID actions m d) = dry_state d
    /\ dry_cache (mutate TruncateID actions m d) = dry_cache d
    /\ snapshots (mutate TruncateID actions m d) = snapshots d
    /\ (forall e, mutationError actions m = Some e ->
          contains "Error" second = true /\ contains e second = true).
Proof.
  destruct (mutate_shape m d) as (second & Heq & Herr).
  exists second. split; [exact Heq|]. rewrite Heq.
  split; [|done].
  rewrite !outbox_appmessage. by rewrite <- app_assoc.
Qed.

End MutationFacts.

Lemma mutating_action_emits_two_messages_witness :
  mutationError (failingActions "no such container") (MutRm "0123456789abcdef")
  = Some "no such container"
  /\ outbox (mutate sampleTruncateID (failingActions "no such container")
               (MutRm "0123456789abcdef") initialDry)
     = ["<red>Removing container with id </><white>0123456789ab</>";
        "<red>Error removing container </><white>0123456789ab. no such container</>"].
Proof.
  split; [reflexivity|].
  destruct (mutating_action_emits_two_messages sampleTruncateID
              (failingActions "no such container") (MutRm "0123456789abcdef")
              initialDry) as (second & Heq & Hout & _).
  rewrite Hout. cbn [app outbox]. do 2 f_equal.
  apply (f_equal outbox) in Heq. rewrite !outbox_appmessage in Heq.
  vm_compute in Heq. by injection Heq as <-.
Defined.



(** X5. [RemoveImageAt] at a position whose lookup fails never panics and
    never starts a removal: the controller is as before but for one message,
    which contains the text of the lookup error.  At a position that
    resolves to a record it does what [RemoveImage] does on the image id of
    that record. *)
Theorem RemoveImageAt_resolves_then_removes
    (TruncateID ImageID : string -> string) (actions : DaemonActions.t)
    (daemon : ContainerDaemon.t) (position : Z) (force : bool) (d : Dry) :
  (forall image e,
     ContainerDaemon.ImageAt daemon position = (image, Some e) ->
     exists msg,
       RemoveImageAt TruncateID ImageID actions daemon position force d
       = Done (appmessage msg d)
       /\ contains e msg = true)
  /\ (forall i,
        ContainerDaemon.ImageAt daemon position = (Some i, None) ->
        RemoveImageAt TruncateID ImageID actions daemon position force d
        = Done (RemoveImage TruncateID actions
                  (ImageID (types.ImageSummary_ID i)) force d)).
Proof.
  unfold RemoveImageAt. split.
  - intros image e ->. eexists; split; [reflexivity|names_it].
  - by intros i ->.
Qed.

Lemma RemoveImageAt_resolves_then_removes_witness :
  (ContainerDaemon.ImageAt (sampleDaemon firstReport) 7
   = (None, Some "Position is higher than number of images")
   /\ RemoveImageAt sampleTruncateID id sampleActions (sampleDaemon firstReport)
        7 true initialDry
      = Done (appmessage
                "<red>Error removing image</>: Position is higher than number of images"
                initialDry))
  /\ (ContainerDaemon.ImageAt (sampleDaemon firstReport) 0
      = (Some (types.mkImageSummary "img1" "busybox"), None)
      /\ RemoveImageAt sampleTruncateID id sampleActions
           (sampleDaemon firstReport) 0 true initialDry
         = Done (RemoveImage sampleTruncateID sampleActions "img1" true
                   initialDry)).
Proof.
  pose proof (RemoveImageAt_resolves_then_removes sampleTruncateID id
                sampleActions (sampleDaemon firstReport)) as H.
  split.
  - split; [reflexivity|].
    destruct (proj1 (H 7%Z true initialDry) None _ eq_refl) as (msg & Heq & _).
    rewrite Heq. vm_compute in Heq. injection Heq as <-. reflexivity.
  - split; [reflexivity|].
    exact (proj2 (H 0%Z true initialDry) _ eq_refl).
Defined.

(** ** Screens *)

Lemma last_effects_changeViewMode `{MS : MainScreens} m d :
  last (effects (changeViewMode m d)) = Some RefreshScreen.
Proof. unfold changeViewMode, perform. cbn [effects]. apply last_snoc. Qed.

(** X6. A pure transition ([ShowContainers], [ShowDiskUsage],
    [ShowDockerEvents], [ShowHelp], [ShowImages], [ShowMonitor], [ShowNodes],
    [ShowServices], [ShowServiceTasks], [ShowTasks]) always returns, shows
    its own screen, ends with a screen refresh, and hands nothing to the
    outbox; snapshots, cache and sort mode are untouched, and the screen to
    go back to changes only when the new screen is a main screen. *)
Theorem pure_transition_shows_its_screen `{MS : MainScreens}
    (daemon : ContainerDaemon.t) (now : Z) (p : pureTransition) (d : Dry) :
  exists d',
    step (mkCall daemon now (transitionOp p)) d = Done d'
    /\ Dry_viewMode d' = transitionMode p
    /\ previousViewMode d'
       = (if isMainScreen (transitionMode p) then transitionMode p
          else previousViewMode d)
    /\ last (effects d') = Some RefreshScreen
    /\ outbox d' = outbox d
    /\ snapshots d' = snapshots d
    /\ dry_cache d' = dry_cache d
    /\ sortNetworksMode d' = sortNetworksMode d.
Proof.
  assert (Hquiet : forall e d0,
            (forall m, e <> Emit m) ->
            outbox (perform e d0) = outbox d0).
  { intros e d0 He. unfold outbox, perform; cbn. rewrite omap_app.
    destruct e; cbn; try apply app_nil_r. by destruct (He message). }
  destruct p; (eexists; split; [reflexivity|]);
    (split; [exact (Dry_viewMode_changeViewMode _ _)|]);
    (split; [exact (previousViewMode_changeViewMode _ _)|]);
    (split; [exact (last_effects_changeViewMode _ _)|]);
    (split; [|split; [reflexivity|split; [reflexivity|]]]);
    try exact (outbox_changeViewMode _ _);
    try exact (sortNetworksMode_SetViewMode _ _).
  - unfold ShowServiceTasks. rewrite outbox_changeViewMode. by apply Hquiet.
  - unfold ShowTasks. rewrite outbox_changeViewMode. by apply Hquiet.
Qed.

(** X7. When the daemon call of [History], [InspectImage], [InspectNetwork]
    or [ShowNetworks] succeeds, the handler shows the matching screen,
    replaces exactly the snapshot it fetched, refreshes the screen once and
    hands nothing to the outbox; the cache is untouched. *)
Theorem fetch_success_stores_and_shows `{MS : MainScreens}
    (daemon : ContainerDaemon.t) (now : Z) (f : fetchThenShow) (d : Dry) :
  gatewayError daemon f = None ->
  exists d',
    step (mkCall daemon now (fetchOp f)) d = Done d'
    /\ Dry_viewMode d' = fetchMode f
    /\ snapshots d' = fetchedSnapshots daemon f d
    /\ effects d' = (effects d ++ [RefreshScreen])%list
    /\ outbox d' = outbox d
    /\ dry_cache d' = dry_cache d.
Proof.
  intros He.
  destruct f as [id|id|id|]; cbn in He |- *; (eexists; split; [reflexivity|]).
  - unfold History.
    destruct (ContainerDaemon.History daemon id) as [h err]; cbn in He; subst err.
    split; [exact (Dry_viewMode_changeViewMode _ d)|].
    repeat (split; [reflexivity|]).
    split; [apply (outbox_changeViewMode ImageHistoryMode d)|reflexivity].
  - unfold InspectImage.
    destruct (ContainerDaemon.InspectImage daemon id) as [i err]; cbn in He; subst err.
    split; [exact (Dry_viewMode_changeViewMode _ d)|].
    repeat (split; [reflexivity|]).
    split; [apply (outbox_changeViewMode InspectImageMode d)|reflexivity].
  - unfold InspectNetwork.
    destruct (ContainerDaemon.NetworkInspect daemon id) as [n err]; cbn in He; subst err.
    split; [exact (Dry_viewMode_changeViewMode _ d)|].
    repeat (split; [reflexivity|]).
    split; [apply (outbox_changeViewMode InspectNetworkMode d)|reflexivity].
  - unfold ShowNetworks.
    destruct (ContainerDaemon.Networks daemon) as [ns err]; cbn in He; subst err.
    split; [exact (Dry_viewMode_changeViewMode _ d)|].
    repeat (split; [reflexivity|]).
    split; [apply (outbox_changeViewMode Networks d)|reflexivity].
Qed.

Lemma fetch_success_stores_and_shows_witness :
  gatewayError (sampleDaemon firstReport) (FetchHistory "img1") = None
  /\ exists d',
       @step specMainScreens
         (mkCall (sampleDaemon firstReport) 0 (fetchOp (FetchHistory "img1")))
         initialDry = Done d'
       /\ Dry_viewMode d' = ImageHistoryMode
       /\ imageHistory d' = [types.mkHistoryResponseItem "layer of img1"].
Proof.
  split; [reflexivity|].
  destruct (@fetch_success_stores_and_shows specMainScreens
              (sampleDaemon firstReport) 0 (FetchHistory "img1") initialDry
              eq_refl) as (d' & Hstep & Hvm & Hsnap & _).
  exists d'. split; [exact Hstep|]. split; [exact Hvm|].
  by injection Hsnap as -> _ _ _ _.
Defined.

(** X8. A by-position handler whose position resolves to a record and
    whose fetch by the record's ID succeeds shows the fetched data: the
    history, image or network of that ID is the snapshot and the matching
    screen is active.  When the fetch by ID fails after the position
    resolved, the handler still returns, with the view mode as it was. *)
Theorem by_position_resolves_then_fetches `{MS : MainScreens}
    (daemon : ContainerDaemon.t) (position : Z) (d : Dry) :
  (forall i,
     ContainerDaemon.ImageAt daemon position = (Some i, None) ->
     (forall h, ContainerDaemon.History daemon (types.ImageSummary_ID i)
                = (h, None) ->
        exists d', HistoryAt daemon position d = Done d'
                   /\ Dry_viewMode d' = ImageHistoryMode
                   /\ imageHistory d' = h)
     /\ (forall img, ContainerDaemon.InspectImage daemon (types.ImageSummary_ID i)
                     = (img, None) ->
           exists d', InspectImageAt daemon position d = Done d'
                      /\ Dry_viewMode d' = InspectImageMode
                      /\ inspectedImage d' = img)
     /\ (exists d1 d2, HistoryAt daemon position d = Done d1
                       /\ InspectImageAt daemon position d = Done d2
                       /\ (gatewayError daemon (FetchHistory (types.ImageSummary_ID i))
                           <> None -> Dry_viewMode d1 = Dry_viewMode d)
                       /\ (gatewayError daemon
                             (FetchInspectImage (types.ImageSummary_ID i))
                           <> None -> Dry_viewMode d2 = Dry_viewMode d)))
  /\ (forall n r,
        ContainerDaemon.NetworkAt daemon position = (Some n, None) ->
        ContainerDaemon.NetworkInspect daemon (types.NetworkResource_ID n)
        = (r, None) ->
        exists d', InspectNetworkAt daemon position d = Done d'
                   /\ Dry_viewMode d' = InspectNetworkMode
                   /\ inspectedNetwork d' = r).
Proof.
  split.
  - intros i Hat. unfold HistoryAt, InspectImageAt. rewrite Hat. cbn [deref].
    split; [|split].
    + intros h Hh. eexists. split; [reflexivity|]. unfold History. rewrite Hh.
      split; [exact (Dry_viewMode_changeViewMode _ d)|reflexivity].
    + intros img Hi. eexists. split; [reflexivity|]. unfold InspectImage.
      rewrite Hi. split; [exact (Dry_viewMode_changeViewMode _ d)|reflexivity].
    + do 2 eexists. split; [reflexivity|]. split; [reflexivity|].
      cbn [gatewayError]. unfold History, InspectImage. split.
      * by destruct (ContainerDaemon.History daemon _) as [h [e|]].
      * by destruct (ContainerDaemon.InspectImage daemon _) as [h [e|]].
  - intros n r Hat Hr. unfold InspectNetworkAt. rewrite Hat. cbn [deref].
    eexists. split; [reflexivity|]. unfold InspectNetwork. rewrite Hr.
    split; [exact (Dry_viewMode_changeViewMode _ d)|reflexivity].
Qed.

Lemma by_position_resolves_then_fetches_witness :
  ContainerDaemon.NetworkAt (sampleDaemon firstReport) 0
  = (Some (types.mkNetworkResource "net1" "bridge"), None)
  /\ ContainerDaemon.NetworkInspect (sampleDaemon firstReport) "net1"
     = (types.mkNetworkResource "net1" "bridge", None)
  /\ exists d',
       @InspectNetworkAt specMainScreens (sampleDaemon firstReport) 0 initialDry
       = Done d'
       /\ Dry_viewMode d' = InspectNetworkMode
       /\ inspectedNetwork d' = types.mkNetworkResource "net1" "bridge".
Proof.
  split; [reflexivity|]. split; [reflexivity|].
  apply (proj2 (@by_position_resolves_then_fetches specMainScreens
                  (sampleDaemon firstReport) 0 initialDry)
               (types.mkNetworkResource "net1" "bridge")
               (types.mkNetworkResource "net1" "bridge") eq_refl eq_refl).
Defined.

(** X9. [ShowMainView] shows the stored previous main view mode and never
    changes it; a second [ShowMainView] changes nothing in the state.  It
    hands nothing to the outbox and leaves snapshots and cache alone. *)
Theorem ShowMainView_keeps_back_target `{MS : MainScreens} (d : Dry) :
  Dry_viewMode (ShowMainView d) = previousViewMode d
  /\ previousViewMode (ShowMainView d) = previousViewMode d
  /\ dry_state (ShowMainView (ShowMainView d)) = dry_state (ShowMainView d)
  /\ outbox (ShowMainView d) = outbox d
  /\ snapshots (ShowMainView d) = snapshots d
  /\ dry_cache (ShowMainView d) = dry_cache d.
Proof.
  assert (Hprev : previousViewMode (ShowMainView d) = previousViewMode d).
  { unfold ShowMainView. rewrite previousViewMode_changeViewMode.
    by destruct (isMainScreen (previousViewMode d)). }
  split; [exact (Dry_viewMode_changeViewMode _ d)|]. split; [exact Hprev|].
  split; [|split; [apply outbox_changeViewMode|done]].
  unfold ShowMainView at 1. rewrite Hprev.
  unfold ShowMainView, changeViewMode, SetViewMode, previousViewMode; cbn.
  by destruct (isMainScreen (state_previousViewMode (dry_state d))).
Qed.

(** X10. Back navigation: after any sequence of [SetViewMode] calls,
    [ShowMainView] shows the argument of the most recent call that named a
    main screen, or the previous main view mode of the starting controller
    if there was none.  In particular, after showing a main screen [m] and
    then any number of other screens, [ShowMainView] is back on [m]. *)
Theorem ShowMainView_returns_to_last_main_screen `{MS : MainScreens}
    (ms : list viewMode) (d : Dry) :
  Dry_viewMode (ShowMainView (SetViewModes ms d))
  = default (previousViewMode d) (last (List.filter isMainScreen ms))
  /\ (forall m, isMainScreen m = true ->
        Forall (fun x => isMainScreen x = false) ms ->
        Dry_viewMode (ShowMainView (SetViewModes ms (SetViewMode m d))) = m).
Proof.
  assert (Hgen : forall d0,
    Dry_viewMode (ShowMainView (SetViewModes ms d0))
    = default (previousViewMode d0) (last (List.filter isMainScreen ms))).
  { intros d0. unfold ShowMainView. rewrite Dry_viewMode_changeViewMode.
    apply (SetViewModes_from ms d0). }
  split; [apply Hgen|].
  intros m Hm Hall. rewrite Hgen, previousViewMode_SetViewMode, Hm.
  assert (Hnil : List.filter isMainScreen ms = []).
  { clear Hgen. induction Hall as [|x l Hx _ IH]; [done|].
    cbn [List.filter]. rewrite Hx. exact IH. }
  by rewrite Hnil.
Qed.

Lemma ShowMainView_returns_to_last_main_screen_witness :
  @isMainScreen specMainScreens Images = true
  /\ Dry_viewMode
       (@ShowMainView specMainScreens
          (@SetViewModes specMainScreens [HelpMode; DiskUsage; InspectImageMode]
             (@SetViewMode specMainScreens Images initialDry)))
     = Images.
Proof.
  split; [reflexivity|].
  apply (proj2 (@ShowMainView_returns_to_last_main_screen specMainScreens
                  [HelpMode; DiskUsage; InspectImageMode] initialDry)
               Images eq_refl).
  repeat constructor.
Defined.

(** ** Runs: effects and sort mode *)

Section RunFacts.

Context `{MS : MainScreens}.

Lemma quietly_refl d : quietly d d.
Proof. exists []. by rewrite app_nil_r. Qed.

Lemma quietly_same d d1 d2 :
  effects d2 = effects d1 -> sortNetworksMode d2 = sortNetworksMode d1 ->
  quietly d d1 -> quietly d d2.
Proof. intros He Hs (l & H1 & H2 & H3). exists l. by rewrite He, Hs. Qed.

Lemma quietly_perform e d d1 :
  isSortDirective e = false -> quietly d d1 -> quietly d (perform e d1).
Proof.
  intros He (l & H1 & H2 & H3). exists (l ++ [e])%list.
  split; [unfold perform; cbn [effects]; by rewrite H1, app_assoc|].
  split; [|exact H3].
  rewrite forallb_app, H2. cbn. by rewrite He.
Qed.

Lemma quietly_changeViewMode m d d1 :
  quietly d d1 -> quietly d (changeViewMode m d1).
Proof.
  intros H. apply quietly_perform; [done|].
  apply quietly_same with d1; [done|apply sortNetworksMode_SetViewMode|exact H].
Qed.

Lemma quietly_History daemon id d : quietly d (History daemon id d).
Proof.
  unfold History. destruct (ContainerDaemon.History daemon id) as [h [e|]].
  - apply quietly_perform; [done|apply quietly_refl].
  - apply quietly_same with (changeViewMode ImageHistoryMode d); [done|done|].
    apply quietly_changeViewMode, quietly_refl.
Qed.

Lemma quietly_InspectImage daemon id d : quietly d (InspectImage daemon id d).
Proof.
  unfold InspectImage. destruct (ContainerDaemon.InspectImage daemon id) as [h [e|]].
  - apply quietly_perform; [done|apply quietly_refl].
  - apply quietly_same with (changeViewMode InspectImageMode d); [done|done|].
    apply quietly_changeViewMode, quietly_refl.
Qed.

Lemma quietly_InspectNetwork daemon id d : quietly d (InspectNetwork daemon id d).
Proof.
  unfold InspectNetwork.
  destruct (ContainerDaemon.NetworkInspect daemon id) as [h [e|]].
  - apply quietly_perform; [done|apply quietly_refl].
  - apply quietly_same with (changeViewMode InspectNetworkMode d); [done|done|].
    apply quietly_changeViewMode, quietly_refl.
Qed.

Lemma quietly_deref {A} (p : option A) (k : A -> outcome Dry) d d' :
  (forall a d', k a = Done d' -> quietly d d') ->
  deref p k = Done d' -> quietly d d'.
Proof. destruct p as [a|]; [cbn; eauto|done]. Qed.

(** Every call but [SortNetworks] leaves the sort mode alone and sends the
    daemon no sort directive. *)
Lemma step_quietly c d d' :
  call_op c <> OpSortNetworks -> step c d = Done d' -> quietly d d'.
Proof.
  destruct c as [daemon now o]. unfold step; cbn [call_daemon call_op call_now].
  intros Hns.
  destruct o; try done;
    try (intros [= <-];
         first [ apply quietly_History
               | apply quietly_InspectImage
               | apply quietly_InspectNetwork
               | apply quietly_changeViewMode, quietly_refl ]).
  - intros [= <-].
    apply quietly_same with d; [done|apply sortNetworksMode_SetViewMode|].
    apply quietly_refl.
  - unfold HistoryAt.
    destruct (ContainerDaemon.ImageAt daemon position) as [p [e|]].
    + intros [= <-]. apply quietly_perform; [done|apply quietly_refl].
    + apply quietly_deref. intros a ? [= <-]. apply quietly_History.
  - unfold InspectImageAt.
    destruct (ContainerDaemon.ImageAt daemon position) as [p [e|]];
      apply quietly_deref; intros a ? [= <-];
      [apply quietly_perform; [done|apply quietly_refl]
      |apply quietly_InspectImage].
  - unfold InspectNetworkAt.
    destruct (ContainerDaemon.NetworkAt daemon position) as [p [e|]];
      apply quietly_deref; intros a ? [= <-];
      [apply quietly_perform; [done|apply quietly_refl]
      |apply quietly_InspectNetwork].
  - intros [= <-]. unfold Prune.
    destruct (ContainerDaemon.Prune daemon) as [pr [e|]].
    + apply quietly_perform; [done|apply quietly_refl].
    + apply quietly_same with d; [done|done|apply quietly_refl].
  - intros [= <-]. unfold ShowInfo.
    destruct (ContainerDaemon.Info daemon) as [i [e|]]; [apply quietly_refl|].
    apply quietly_same with (changeViewMode InfoMode d); [done|done|].
    apply quietly_changeViewMode, quietly_refl.
  - intros [= <-]. unfold ShowNetworks.
    destruct (ContainerDaemon.Networks daemon) as [i [e|]].
    + apply quietly_perform; [done|apply quietly_refl].
    + apply quietly_same with (changeViewMode Networks d); [done|done|].
      apply quietly_changeViewMode, quietly_refl.
  - intros [= <-]. unfold ShowServiceTasks.
    apply quietly_changeViewMode, quietly_perform; [done|apply quietly_refl].
  - intros [= <-]. unfold ShowTasks.
    apply quietly_changeViewMode, quietly_perform; [done|apply quietly_refl].
  - intros [= <-]. apply quietly_same with d; [done|done|apply quietly_refl].
Qed.

Lemma op_is_SortNetworks (o : op) : o = OpSortNetworks \/ o <> OpSortNetworks.
Proof. destruct o; auto. Qed.

Lemma step_SortNetworks c d d' :
  call_op c = OpSortNetworks -> step c d = Done d' -> d' = SortNetworks d.
Proof. unfold step. intros ->. by intros [= <-]. Qed.



Lemma sortDirectives_quiet l :
  forallb (fun e => negb (isSortDirective e)) l = true ->
  omap (fun e => match e with DaemonSortNetworks m => Some m | _ => None end) l
  = [].
Proof.
  induction l as [|e l IH]; [done|]. cbn [forallb].
  intros [He Hl]%andb_true_iff. destruct e; try done; cbn; by apply IH.
Qed.

Lemma nextSortNetworksMode_period m :
  nextSortNetworksMode (nextSortNetworksMode (nextSortNetworksMode m)) = m.
Proof. by destruct m. Qed.

Lemma iter_nextSortNetworksMode_mul q r m :
  Nat.iter (3 * q + r) nextSortNetworksMode m = Nat.iter r nextSortNetworksMode m.
Proof.
  induction q as [|q IH]; [done|].
  replace (3 * S q + r) with (S (S (S (3 * q + r)))) by lia.
  rewrite !Nat.iter_succ. by rewrite nextSortNetworksMode_period.
Qed.

Lemma iter_nextSortNetworksMode_mod n m :
  Nat.iter n nextSortNetworksMode m = Nat.iter (n mod 3) nextSortNetworksMode m.
Proof.
  transitivity (Nat.iter (3 * (n / 3) + n mod 3) nextSortNetworksMode m).
  - apply (f_equal (fun k => Nat.iter k nextSortNetworksMode m)).
    apply Nat.div_mod_eq.
  - apply iter_nextSortNetworksMode_mul.
Qed.


(** X12. The sort mode after a run depends only on the sort mode before it
    and on the number of [SortNetworks] calls in it, counted modulo 3: no
    other call changes the sort mode. *)
Theorem sort_mode_counts_rotations (cs : list call) (d d' : Dry) :
  run cs d = Done d' ->
  sortNetworksMode d'
  = Nat.iter (sortCalls cs mod 3) nextSortNetworksMode (sortNetworksMode d).
Proof.
  rewrite <- iter_nextSortNetworksMode_mod.
  revert d. induction cs as [|c cs IH]; intros d; cbn [run].
  - by intros [= <-].
  - destruct (step c d) as [d1|] eqn:E; [|done].
    intros Hrun. rewrite (IH d1 Hrun). unfold sortCalls. cbn [List.filter].
    destruct (op_is_SortNetworks (call_op c)) as [Hs|Hs].
    + rewrite Hs. cbn [length]. rewrite Nat.iter_succ_r.
      by rewrite (step_SortNetworks c d d1 Hs E).
    + destruct (step_quietly c d d1 Hs E) as (l & _ & _ & ->).
      by destruct (call_op c).
Qed.

Lemma lastSortDirective_step c d d' :
  lastSortDirective (effects d) = Some (sortNetworksMode d) ->
  step c d = Done d' ->
  lastSortDirective (effects d') = Some (sortNetworksMode d').
Proof.
  intros Hinv H. unfold lastSortDirective in *.
  destruct (op_is_SortNetworks (call_op c)) as [Hs|Hs].
  - rewrite (step_SortNetworks c d d' Hs H), effects_SortNetworks.
    rewrite omap_app. cbn. apply last_snoc.
  - destruct (step_quietly c d d' Hs H) as (l & -> & Hl & ->).
    by rewrite omap_app, (sortDirectives_quiet l Hl), app_nil_r.
Qed.

(** X13. The daemon and the controller agree on the sort mode: in every
    controller reached from the initial one, the sort directive the daemon
    received last is the sort mode the controller holds. *)
Theorem daemon_sort_directive_matches_sort_mode (cs : list call) (d : Dry) :
  run cs initialDry = Done d ->
  lastSortDirective (effects d) = Some (sortNetworksMode d).
Proof.
  assert (Hgen : forall d0,
            lastSortDirective (effects d0) = Some (sortNetworksMode d0) ->
            run cs d0 = Done d ->
            lastSortDirective (effects d) = Some (sortNetworksMode d)).
  { induction cs as [|c cs IH]; intros d0 Hinv; cbn [run].
    - by intros [= <-].
    - destruct (step c d0) as [d1|] eqn:E; [|done].
      apply IH. by apply lastSortDirective_step with c d0. }
  by apply Hgen.
Qed.

(** X14. Only [Prune] and the cache janitor touch the cache: a run that
    holds neither of them ends with the cache it started with, so
    [PruneReport] answers after the run as it would have before it. *)
Theorem cache_untouched_without_prune (cs : list call) (d d' : Dry) :
  Forall (fun c => call_op c <> OpPrune /\ call_op c <> OpJanitor) cs ->
  run cs d = Done d' ->
  dry_cache d' = dry_cache d
  /\ forall t, PruneReport t d' = PruneReport t d.
Proof.
  intros Hall Hrun.
  assert (Hc : dry_cache d' = dry_cache d).
  { revert d Hrun. induction Hall as [|c cs [HP HJ] _ IH]; intros d; cbn [run].
    - by intros [= <-].
    - destruct (step c d) as [d1|] eqn:E; [|done].
      intros Hrun. rewrite (IH d1 Hrun). by apply dry_cache_step with c. }
  split; [exact Hc|]. intros t. unfold PruneReport. by rewrite Hc.
Qed.

End RunFacts.


Lemma sort_mode_counts_rotations_witness :
  exists d,
    @run specMainScreens sortSession initialDry = Done d
    /\ sortCalls sortSession = 4
    /\ sortNetworksMode d = SortNetworksByName.
Proof.
  eexists. split; [reflexivity|]. split; [reflexivity|].
  rewrite (@sort_mode_counts_rotations specMainScreens sortSession initialDry _
             eq_refl).
  reflexivity.
Defined.

Lemma daemon_sort_directive_matches_sort_mode_witness :
  exists d,
    @run specMainScreens sortSession initialDry = Done d
    /\ lastSortDirective (effects d) = Some SortNetworksByName.
Proof.
  eexists. split; [reflexivity|].
  rewrite (@daemon_sort_directive_matches_sort_mode specMainScreens sortSession
             _ eq_refl).
  reflexivity.
Defined.

Lemma cache_untouched_without_prune_witness :
  exists d,
    @run specMainScreens sampleSession
      (Prune (sampleDaemon firstReport) 5 initialDry) = Done d
    /\ PruneReport 80 d = Some firstReport.
Proof.
  eexists. split; [reflexivity|].
  rewrite (proj2 (@cache_untouched_without_prune specMainScreens sampleSession
                    (Prune (sampleDaemon firstReport) 5 initialDry) _
                    ltac:(unfold sampleSession; repeat constructor; discriminate)
                    eq_refl)).
  reflexivity.
Defined.

(** ** The prune report over time *)

Lemma get_DeleteExpired now t k c :
  (now <= t)%Z -> cache.get t k (cache.DeleteExpired now c) = cache.get t k c.
Proof.
  intros Hle. unfold cache.get, cache.DeleteExpired; cbn [cache.items].
  rewrite map_lookup_filter.
  destruct (cache.items c !! k) as [[x e]|]; [|done]. cbn.
  case_guard; cbn in *; [done|].
  destruct (decide (0 < e)%Z); [|lia].
  destruct (decide (e < t)%Z); [done|lia].
Qed.

Section ExpiryFacts.

Context `{MS : MainScreens}.

(** What is left of a stored report: the item as stored, or nothing. *)
Lemma stored_or_gone_step c d d' pr e :
  (cache.items (dry_cache d) !! pruneReport = None
   \/ cache.items (dry_cache d) !! pruneReport = Some (cache.mkItem pr e)) ->
  notSuccessfulPrune c ->
  step c d = Done d' ->
  cache.items (dry_cache d') !! pruneReport = None
  \/ cache.items (dry_cache d') !! pruneReport = Some (cache.mkItem pr e).
Proof.
  intros H Hn Hstep.
  destruct (op_cases (call_op c)) as [HP|[HJ|[HP HJ]]].
  - specialize (Hn HP).
    unfold step in Hstep. rewrite HP in Hstep. injection Hstep as <-.
    unfold Prune. by destruct (ContainerDaemon.Prune (call_daemon c)) as [pr' [err|]].
  - unfold step in Hstep. rewrite HJ in Hstep. injection Hstep as <-.
    cbn [dry_cache with_cache]. unfold cache.DeleteExpired; cbn [cache.items].
    rewrite map_lookup_filter.
    destruct H as [-> | ->]; [by left|]. cbn. case_guard; cbn; auto.
  - by rewrite (dry_cache_step c d d' HP HJ Hstep).
Qed.

Lemma stored_or_gone_run cs : forall d d' pr e,
  (cache.items (dry_cache d) !! pruneReport = None
   \/ cache.items (dry_cache d) !! pruneReport = Some (cache.mkItem pr e)) ->
  Forall notSuccessfulPrune cs ->
  run cs d = Done d' ->
  cache.items (dry_cache d') !! pruneReport = None
  \/ cache.items (dry_cache d') !! pruneReport = Some (cache.mkItem pr e).
Proof.
  induction cs as [|c cs IH]; intros d d' pr e H Hall; cbn [run].
  - by intros [= <-].
  - destruct (step c d) as [d1|] eqn:E; [|done].
    inversion Hall as [|? ? Hc Hcs]; subst.
    apply IH; [|exact Hcs]. by apply stored_or_gone_step with c d.
Qed.

(** X15. A cached prune report expires: once the clock is past the 30
    seconds after the [Prune] that stored it, [PruneReport] returns nil,
    whatever calls ran in between, as long as no later [Prune] succeeded. *)
Theorem PruneReport_expires (daemon : ContainerDaemon.t)
    (pr : option types.PruneReport) (t0 t : Z) (d d' : Dry) (cs : list call) :
  ContainerDaemon.Prune daemon = (pr, None) ->
  cache.get t0 pruneReport (dry_cache d) = None ->
  (0 < t0 + pruneTTL)%Z ->
  Forall notSuccessfulPrune cs ->
  run cs (Prune daemon t0 d) = Done d' ->
  (t0 + pruneTTL < t)%Z ->
  PruneReport t d' = None.
Proof.
  intros Hp Hfree Hpos Hall Hrun Ht.
  destruct (stored_or_gone_run cs (Prune daemon t0 d) d' pr (t0 + pruneTTL)%Z)
    as [Hnone|Hsome]; [right; by apply Prune_stores|exact Hall|exact Hrun| |].
  - unfold PruneReport, cache.Get, cache.get. by rewrite Hnone.
  - unfold PruneReport, cache.Get.
    by rewrite (get_expired t pruneReport _ pr (t0 + pruneTTL)%Z Hsome).
Qed.

(** X16. The cache janitor cannot be observed: at any moment not before
    its tick, [PruneReport] returns what it would have returned without the
    tick, and the tick changes nothing but the cache. *)
Theorem janitor_is_unobservable (daemon : ContainerDaemon.t) (now t : Z)
    (d : Dry) :
  (now <= t)%Z ->
  exists d',
    step (mkCall daemon now OpJanitor) d = Done d'
    /\ PruneReport t d' = PruneReport t d
    /\ dry_state d' = dry_state d
    /\ effects d' = effects d
    /\ snapshots d' = snapshots d.
Proof.
  intros Hle. eexists. split; [reflexivity|]. split; [|done].
  unfold PruneReport, cache.Get; cbn [dry_cache with_cache].
  by rewrite get_DeleteExpired.
Qed.

End ExpiryFacts.

Lemma PruneReport_expires_witness :
  exists d',
    @run specMainScreens failedPruneSession
      (Prune (sampleDaemon firstReport) sampleNow initialDry) = Done d'
    /\ PruneReport (sampleNow + 31 * time.Second) d' = None
    /\ PruneReport (sampleNow + 30 * time.Second)
         (Prune (sampleDaemon firstReport) sampleNow initialDry)
       = Some firstReport.
Proof.
  eexists. split; [reflexivity|]. split; [|reflexivity].
  eapply (@PruneReport_expires specMainScreens (sampleDaemon firstReport)
            (Some firstReport) sampleNow (sampleNow + 31 * time.Second)%Z
            initialDry _ failedPruneSession).
  - reflexivity.
  - reflexivity.
  - reflexivity.
  - unfold failedPruneSession, notSuccessfulPrune.
    repeat constructor; cbn; intros; congruence.
  - reflexivity.
  - reflexivity.
Defined.

Lemma janitor_is_unobservable_witness :
  let d := Prune (sampleDaemon firstReport) sampleNow initialDry in
  exists d',
    @step specMainScreens
      (mkCall (sampleDaemon firstReport) (sampleNow + 40 * time.Second) OpJanitor)
      d = Done d'
    /\ cache.items (dry_cache d') = ∅
    /\ PruneReport (sampleNow + 40 * time.Second) d'
       = PruneReport (sampleNow + 40 * time.Second) d.
Proof.
  intros d.
  destruct (@janitor_is_unobservable specMainScreens (sampleDaemon firstReport)
              (sampleNow + 40 * time.Second)%Z (sampleNow + 40 * time.Second)%Z
              d ltac:(reflexivity)) as (d' & Hstep & Hpr & _).
  exists d'. split; [exact Hstep|]. split; [|exact Hpr].
  injection Hstep as <-. by vm_compute.
Defined.

(** X17. [Prune] touches nothing but the cache and the outbox: view modes,
    sort mode and snapshots are as before and the screen is not refreshed.
    When the daemon fails with [e], the cache is as before, so [PruneReport]
    answers as before, and one message containing ["Error"] and the text of
    [e] is emitted; when the daemon succeeds, nothing is emitted. *)
Theorem Prune_touches_only_the_cache (daemon : ContainerDaemon.t) (now : Z)
    (d : Dry) :
  dry_state (Prune daemon now d) = dry_state d
  /\ snapshots (Prune daemon now d) = snapshots d
  /\ (forall pr e,
        ContainerDaemon.Prune daemon = (pr, Some e) ->
        (forall t, PruneReport t (Prune daemon now d) = PruneReport t d)
        /\ exists msg,
             Prune daemon now d = appmessage msg d
             /\ contains "Error" msg = true
             /\ contains e msg = true)
  /\ (forall pr,
        ContainerDaemon.Prune daemon = (pr, None) ->
        effects (Prune daemon now d) = effects d).
Proof.
  unfold Prune.
  destruct (ContainerDaemon.Prune daemon) as [pr0 [e0|]];
    (split; [done|]); (split; [done|]); split; try done.
  - intros pr e [= _ <-]. split; [done|].
    eexists. split; [reflexivity|]. split; [reflexivity|names_it].
Qed.

Lemma Prune_touches_only_the_cache_witness :
  let d := Prune (sampleDaemon firstReport) sampleNow initialDry in
  ContainerDaemon.Prune (failingDaemon "daemon down") = (None, Some "daemon down")
  /\ PruneReport (sampleNow + 2 * time.Second)
       (Prune (failingDaemon "daemon down") (sampleNow + 1 * time.Second) d)
     = Some firstReport.
Proof.
  intros d. split; [reflexivity|].
  rewrite (proj1 (proj1 (proj2 (proj2
             (Prune_touches_only_the_cache (failingDaemon "daemon down")
                (sampleNow + 1 * time.Second)%Z d))) None "daemon down" eq_refl)).
  reflexivity.
Defined.

(** X18. [SortNetworks] always tells the daemon the sort mode it has just
    stored and then refreshes the screen, also when the mode is none of the
    three named ones and so stays as it is.  It hands nothing to the outbox
    and leaves view modes, snapshots and cache alone. *)
Theorem SortNetworks_pushes_stored_mode (d : Dry) :
  effects (SortNetworks d)
  = (effects d ++ [DaemonSortNetworks (sortNetworksMode (SortNetworks d));
                   RefreshScreen])%list
  /\ (forall n, sortNetworksMode d = SortModeOther n ->
        lastSortDirective (effects (SortNetworks d)) = Some (SortModeOther n))
  /\ outbox (SortNetworks d) = outbox d
  /\ Dry_viewMode (SortNetworks d) = Dry_viewMode d
  /\ previousViewMode (SortNetworks d) = previousViewMode d
  /\ snapshots (SortNetworks d) = snapshots d
  /\ dry_cache (SortNetworks d) = dry_cache d.
Proof.
  split; [apply effects_SortNetworks|]. split; [|split; [|done]].
  - intros n Hn. unfold lastSortDirective.
    rewrite effects_SortNetworks, omap_app. cbn [omap].
    rewrite sortNetworksMode_SortNetworks, Hn. apply last_snoc.
  - unfold outbox. rewrite effects_SortNetworks, omap_app. apply app_nil_r.
Qed.

Lemma SortNetworks_pushes_stored_mode_witness :
  let d := with_state (mkState Main Main (SortModeOther 9)) initialDry in
  sortNetworksMode d = SortModeOther 9
  /\ lastSortDirective (effects d) = Some SortNetworksByID
  /\ lastSortDirective (effects (SortNetworks d)) = Some (SortModeOther 9).
Proof.
  intros d. split; [reflexivity|]. split; [reflexivity|].
  apply (proj1 (proj2 (SortNetworks_pushes_stored_mode d)) 9%N eq_refl).
Defined.
